(** * wagtail/admin/wagtail_hooks.py: admin hook registrations

    A shallow embedding of the hook callbacks of
    [wagtail/admin/wagtail_hooks.py] and the properties of its
    registration tables, listing buttons and audit-log formatters.

    Conventions of the embedding:
    - a Python generator is the list of the values it yields, in order;
    - a registry object mutated by [register_*] calls is an explicit
      state threaded through the calls, each call appending one entry;
    - a raised exception is the [Raise] case of [result];
    - [gettext]/[gettext_lazy] keep the message id (no catalogue is
      loaded), and [%]-formatting of a [%(title)s] place holder is the
      concatenation of the pieces;
    - services of the host (URL reversal, capability checks) are
      Section variables or record fields holding their results. *)

From stdpp Require Import gmap strings list fin_maps pretty.
From Stdlib Require Import ZArith QArith Sorted Ascii.

Set Warnings "-register-all".
Local Open Scope string_scope.
Local Open Scope Z_scope.
Local Open Scope list_scope.

(** ** append_querystring (line 31) *)

(** Python truth value of an optional string: [None] and [''] are false. *)
Definition str_truthy (s : option string) : bool :=
  match s with
  | None => false
  | Some s => negb (String.eqb s "")
  end.

(** ['%s%s' % (path, '?%s' % querystring if querystring else '')]: the
    conditional expression binds weaker than [%]. *)
Definition append_querystring (path : string) (querystring : option string) : string :=
  path +:+ (if str_truthy querystring
            then "?" +:+ default "" querystring
            else "").

(** ** Event data of an audit-log entry

    The [data] of a log entry is a decoded JSON document. *)
Inductive json :=
| JNull
| JBool (b : bool)
| JInt (n : Z)
| JFloat (q : Q)
| JStr (s : string)
| JList (l : list json)
| JDict (m : gmap string json).

Inductive exn :=
| KeyError (key : string)
| TypeError.

Inductive result (A : Type) :=
| Ok (a : A)
| Raise (e : exn).
Arguments Ok {A} a.
Arguments Raise {A} e.

(** Sequencing: the first exception raised aborts what follows. *)
#[export] Instance result_ret : MRet result := fun A a => Ok a.
#[export] Instance result_bind : MBind result := fun A B k r =>
  match r with
  | Ok a => k a
  | Raise e => Raise e
  end.

(** [v[key]] for a string key: only a dict accepts it, and a dict
    without the key raises [KeyError]; every other JSON value raises
    [TypeError] (not subscriptable, or indices must be integers). *)
Definition getitem (v : json) (key : string) : result json :=
  match v with
  | JDict m =>
      match m !! key with
      | Some x => Ok x
      | None => Raise (KeyError key)
      end
  | _ => Raise TypeError
  end.

(** [r[key]] where [r] is itself the result of a subscript: lets
    [data['revision']['id']] be written [Ok data @ "revision" @ "id"]. *)
Definition sub (r : result json) (key : string) : result json :=
  v ← r; getitem v key.

Notation "r @ k" := (sub r k) (at level 40, left associativity).

(** Python truth value of a JSON value, as tested by [if v:]. *)
Definition truthy (v : json) : bool :=
  match v with
  | JNull => false
  | JBool b => b
  | JInt n => negb (n =? 0)
  | JFloat q => negb (Qnum q =? 0)
  | JStr s => negb (String.eqb s "")
  | JList l => match l with [] => false | _ => true end
  | JDict m => negb (bool_decide (m = ∅))
  end.

(** A lazy string: a translatable message id, or a [format_lazy] call
    holding the format string and its keyword arguments. *)
Inductive lazy_str :=
| gettext_lazy (msgid : string)
| format_lazy (format_string : string) (kwargs : list (string * json)).

Definition is_KeyError (e : exn) : bool :=
  match e with KeyError _ => true | TypeError => false end.

Definition is_KeyError_or_TypeError (e : exn) : bool :=
  match e with KeyError _ => true | TypeError => true end.

(** [try: body  except <caught>: handler] *)
Definition try_except {A} (body : result A) (caught : exn -> bool) (handler : result A)
  : result A :=
  match body with
  | Ok a => Ok a
  | Raise e => if caught e then handler else Raise e
  end.

Notation "'try' body 'except' c '=>' h" := (try_except body c h)
  (at level 10, body at level 200, c at level 0, h at level 200).

(** ** The formatters of register_core_log_actions (lines 790-889)

    Keyword arguments are evaluated left to right before [format_lazy]
    is called, so the first failing subscript decides the exception. *)
Module CoreLog.

Definition revert_message (data : json) : result lazy_str :=
  try
    revision_id ← Ok data @ "revision" @ "id";
    created_at ← Ok data @ "revision" @ "created";
    Ok (format_lazy
          "Reverted to previous revision with id {revision_id} from {created_at}"
          [("revision_id", revision_id); ("created_at", created_at)])
  except is_KeyError =>
    Ok (gettext_lazy "Reverted to previous revision").

Definition schedule_revert_message (data : json) : result lazy_str :=
  try
    revision_id ← Ok data @ "revision" @ "id";
    created_at ← Ok data @ "revision" @ "created";
    go_live_at ← Ok data @ "revision" @ "go_live_at";
    Ok (format_lazy
          "Scheduled revision {revision_id} from {created_at} for publishing at {go_live_at}."
          [("revision_id", revision_id); ("created_at", created_at);
           ("go_live_at", go_live_at)])
  except is_KeyError =>
    Ok (gettext_lazy "Revision scheduled for publishing").

Definition copy_message (data : json) : result lazy_str :=
  try
    title ← Ok data @ "source" @ "title";
    Ok (format_lazy "Copied from {title}" [("title", title)])
  except is_KeyError =>
    Ok (gettext_lazy "Copied").

Definition move_message (data : json) : result lazy_str :=
  try
    old_parent ← Ok data @ "source" @ "title";
    new_parent ← Ok data @ "destination" @ "title";
    Ok (format_lazy "Moved from '{old_parent}' to '{new_parent}'"
          [("old_parent", old_parent); ("new_parent", new_parent)])
  except is_KeyError =>
    Ok (gettext_lazy "Moved").

Definition schedule_publish_message (data : json) : result lazy_str :=
  try
    has_live_version ← Ok data @ "revision" @ "has_live_version";
    if truthy has_live_version then
      revision_id ← Ok data @ "revision" @ "id";
      created_at ← Ok data @ "revision" @ "created";
      go_live_at ← Ok data @ "revision" @ "go_live_at";
      Ok (format_lazy
            "Revision {revision_id} from {created_at} scheduled for publishing at {go_live_at}."
            [("revision_id", revision_id); ("created_at", created_at);
             ("go_live_at", go_live_at)])
    else
      go_live_at ← Ok data @ "revision" @ "go_live_at";
      Ok (format_lazy "Page scheduled for publishing at {go_live_at}"
            [("go_live_at", go_live_at)])
  except is_KeyError =>
    Ok (gettext_lazy "Page scheduled for publishing").

Definition unschedule_publish_message (data : json) : result lazy_str :=
  try
    has_live_version ← Ok data @ "revision" @ "has_live_version";
    if truthy has_live_version then
      revision_id ← Ok data @ "revision" @ "id";
      created_at ← Ok data @ "revision" @ "created";
      go_live_at ← Ok data @ "revision" @ "go_live_at";
      Ok (format_lazy
            "Revision {revision_id} from {created_at} unscheduled from publishing at {go_live_at}."
            [("revision_id", revision_id); ("created_at", created_at);
             ("go_live_at", go_live_at)])
    else
      go_live_at ← Ok data @ "revision" @ "go_live_at";
      Ok (format_lazy "Page unscheduled for publishing at {go_live_at}"
            [("go_live_at", go_live_at)])
  except is_KeyError =>
    Ok (gettext_lazy "Page unscheduled from publishing").

Definition add_view_restriction (data : json) : result lazy_str :=
  try
    restriction ← Ok data @ "restriction" @ "title";
    Ok (format_lazy "Added the '{restriction}' view restriction"
          [("restriction", restriction)])
  except is_KeyError =>
    Ok (gettext_lazy "Added view restriction").

Definition edit_view_restriction (data : json) : result lazy_str :=
  try
    restriction ← Ok data @ "restriction" @ "title";
    Ok (format_lazy "Updated the view restriction to '{restriction}'"
          [("restriction", restriction)])
  except is_KeyError =>
    Ok (gettext_lazy "Updated view restriction").

Definition delete_view_restriction (data : json) : result lazy_str :=
  try
    restriction ← Ok data @ "restriction" @ "title";
    Ok (format_lazy "Removed the view restriction to '{restriction}'"
          [("restriction", restriction)])
  except is_KeyError =>
    Ok (gettext_lazy "Removed view restriction").

End CoreLog.

(** ** The formatters of register_workflow_log_actions (lines 904-938) *)
Module WorkflowLog.

Definition workflow_start_message (data : json) : result lazy_str :=
  try
    workflow ← Ok data @ "workflow" @ "title";
    task ← Ok data @ "workflow" @ "next" @ "title";
    Ok (format_lazy "'{workflow}' started. Next step '{task}'"
          [("workflow", workflow); ("task", task)])
  except is_KeyError_or_TypeError =>
    Ok (gettext_lazy "Workflow started").

Definition workflow_approve_message (data : json) : result lazy_str :=
  try
    next ← Ok data @ "workflow" @ "next";
    if truthy next then
      task ← Ok data @ "workflow" @ "task" @ "title";
      next_task ← Ok data @ "workflow" @ "next" @ "title";
      Ok (format_lazy "Approved at '{task}'. Next step '{next_task}'"
            [("task", task); ("next_task", next_task)])
    else
      task ← Ok data @ "workflow" @ "task" @ "title";
      workflow ← Ok data @ "workflow" @ "title";
      Ok (format_lazy "Approved at '{task}'. '{workflow}' complete"
            [("task", task); ("workflow", workflow)])
  except is_KeyError_or_TypeError =>
    Ok (gettext_lazy "Workflow task approved").

Definition workflow_reject_message (data : json) : result lazy_str :=
  try
    task ← Ok data @ "workflow" @ "task" @ "title";
    Ok (format_lazy "Rejected at '{task}'. Workflow complete" [("task", task)])
  except is_KeyError_or_TypeError =>
    Ok (gettext_lazy "Workflow task rejected. Workflow complete").

End WorkflowLog.

(** ** The log-action registry (lines 778-942)

    [actions.register_action(action, label, message)]: the message is a
    lazy string or a formatter called with the entry's data. *)
Inductive action_message :=
| Static (s : lazy_str)
| Formatter (f : json -> result lazy_str).

Record log_action := LogAction {
  action : string;
  label : string;
  message : action_message;
}.

Definition register_action (code lbl : string) (msg : action_message)
    (actions : list log_action) : list log_action :=
  actions ++ [LogAction code lbl msg].

(** Statements of a hook body run top to bottom on the registry. *)
Definition run {S} (stmts : list (S -> S)) (s : S) : S :=
  foldl (fun acc stmt => stmt acc) s stmts.

Definition register_core_log_actions : list log_action -> list log_action :=
  run [
    register_action "wagtail.create" "Create" (Static (gettext_lazy "Created"));
    register_action "wagtail.edit" "Save draft" (Static (gettext_lazy "Draft saved"));
    register_action "wagtail.delete" "Delete" (Static (gettext_lazy "Deleted"));
    register_action "wagtail.publish" "Publish" (Static (gettext_lazy "Published"));
    register_action "wagtail.unpublish" "Unpublish" (Static (gettext_lazy "Unpublished"));
    register_action "wagtail.lock" "Lock" (Static (gettext_lazy "Locked"));
    register_action "wagtail.unlock" "Unlock" (Static (gettext_lazy "Unlocked"));
    register_action "wagtail.moderation.approve" "Approve" (Static (gettext_lazy "Approved"));
    register_action "wagtail.moderation.reject" "Reject" (Static (gettext_lazy "Rejected"));
    register_action "wagtail.revert" "Revert" (Formatter CoreLog.revert_message);
    register_action "wagtail.schedule.revert" "Schedule revert"
      (Formatter CoreLog.schedule_revert_message);
    register_action "wagtail.copy" "Copy" (Formatter CoreLog.copy_message);
    register_action "wagtail.move" "Move" (Formatter CoreLog.move_message);
    register_action "wagtail.schedule.publish" "Schedule publication"
      (Formatter CoreLog.schedule_publish_message);
    register_action "wagtail.schedule.cancel" "Unschedule publication"
      (Formatter CoreLog.unschedule_publish_message);
    register_action "wagtail.view_restriction.create" "Add view restrictions"
      (Formatter CoreLog.add_view_restriction);
    register_action "wagtail.view_restriction.edit" "Update view restrictions"
      (Formatter CoreLog.edit_view_restriction);
    register_action "wagtail.view_restriction.delete" "Remove view restrictions"
      (Formatter CoreLog.delete_view_restriction)
  ].

Definition register_workflow_log_actions : list log_action -> list log_action :=
  run [
    register_action "wagtail.workflow.start" "Workflow: start"
      (Formatter WorkflowLog.workflow_start_message);
    register_action "wagtail.workflow.approve" "Workflow: approve task"
      (Formatter WorkflowLog.workflow_approve_message);
    register_action "wagtail.workflow.reject" "Workflow: reject task"
      (Formatter WorkflowLog.workflow_reject_message)
  ].

(** The registry after both [register_log_actions] hooks ran, in the
    order the file declares them. *)
Definition registered_log_actions : list log_action :=
  register_workflow_log_actions (register_core_log_actions []).

(** ** Page listing buttons (lines 119-226) *)

Record page := Page {
  page_id : Z;
  get_admin_display_title : string;
  has_unpublished_changes : bool;
  is_previewable : bool;
  live : bool;
  page_url : option string;
}.

(** The results of the capability checks of a [page_perms] object. *)
Record page_perms := PagePerms {
  can_edit : bool;
  can_add_subpage : bool;
  can_move : bool;
  can_copy : bool;
  can_delete : bool;
  can_unpublish : bool;
  can_view_revisions : bool;
}.

(** The three widget classes the generators instantiate, with the
    arguments each call passes. *)
Inductive widget :=
| Button (label url : string) (attrs : gmap string string)
    (classes : option (gset string)) (priority : Z)
| PageListingButton (label url : string) (attrs : gmap string string) (priority : Z)
| ButtonWithDropdownFromHook (label hook_name : string) (page : page)
    (perms : page_perms) (is_parent : bool) (next_url : option string)
    (attrs : gmap string string) (priority : Z).

Definition widget_label (w : widget) : string :=
  match w with
  | Button l _ _ _ _ => l
  | PageListingButton l _ _ _ => l
  | ButtonWithDropdownFromHook l _ _ _ _ _ _ _ => l
  end.

Definition widget_priority (w : widget) : Z :=
  match w with
  | Button _ _ _ _ p => p
  | PageListingButton _ _ _ p => p
  | ButtonWithDropdownFromHook _ _ _ _ _ _ _ p => p
  end.

(** [if cond: yield w] *)
Definition yield_if (cond : bool) (w : widget) : list widget :=
  if cond then [w] else [].

Section Buttons.

(** Django's URL reversal: route name and positional arguments. *)
Variable reverse : string -> list Z -> string.

Definition page_listing_buttons (page : page) (page_perms : page_perms)
    (is_parent : bool) (next_url : option string) : list widget :=
  let title := get_admin_display_title page in
  yield_if (can_edit page_perms)
    (PageListingButton "Edit"
       (reverse "wagtailadmin_pages:edit" [page_id page])
       {[ "aria-label" := "Edit '" +:+ title +:+ "'" ]}
       10)
  ++ yield_if (has_unpublished_changes page && is_previewable page)
    (PageListingButton "View draft"
       (reverse "wagtailadmin_pages:view_draft" [page_id page])
       {[ "aria-label" := "Preview draft version of '" +:+ title +:+ "'";
          "target" := "_blank"; "rel" := "noopener noreferrer" ]}
       20)
  ++ yield_if (live page && str_truthy (page_url page))
    (PageListingButton "View live"
       (default "" (page_url page))
       {[ "target" := "_blank"; "rel" := "noopener noreferrer";
          "aria-label" := "View live version of '" +:+ title +:+ "'" ]}
       30)
  ++ (if can_add_subpage page_perms then
        if is_parent then
          [Button "Add child page"
             (reverse "wagtailadmin_pages:add_subpage" [page_id page])
             {[ "aria-label" := "Add a child page to '" +:+ title +:+ "' " ]}
             (Some {[ "button"; "button-small"; "bicolor"; "icon"; "white"; "icon-plus" ]})
             40]
        else
          [PageListingButton "Add child page"
             (reverse "wagtailadmin_pages:add_subpage" [page_id page])
             {[ "aria-label" := "Add a child page to '" +:+ title +:+ "' " ]}
             40]
      else [])
  ++ [ButtonWithDropdownFromHook "More"
        "register_page_listing_more_buttons"
        page page_perms is_parent next_url
        {[ "target" := "_blank"; "rel" := "noopener noreferrer";
           "title" := "View more options for '" +:+ title +:+ "'" ]}
        50].

Definition page_listing_more_buttons (page : page) (page_perms : page_perms)
    (is_parent : bool) (next_url : option string) : list widget :=
  let title := get_admin_display_title page in
  yield_if (can_move page_perms)
    (Button "Move"
       (reverse "wagtailadmin_pages:move" [page_id page])
       {[ "title" := "Move page '" +:+ title +:+ "'" ]}
       None 10)
  ++ yield_if (can_copy page_perms)
    (Button "Copy"
       (append_querystring (reverse "wagtailadmin_pages:copy" [page_id page]) next_url)
       {[ "title" := "Copy page '" +:+ title +:+ "'" ]}
       None 20)
  ++ yield_if (can_delete page_perms)
    (Button "Delete"
       (append_querystring (reverse "wagtailadmin_pages:delete" [page_id page]) next_url)
       {[ "title" := "Delete page '" +:+ title +:+ "'" ]}
       None 30)
  ++ yield_if (can_unpublish page_perms)
    (Button "Unpublish"
       (append_querystring (reverse "wagtailadmin_pages:unpublish" [page_id page]) next_url)
       {[ "title" := "Unpublish page '" +:+ title +:+ "'" ]}
       None 40)
  ++ yield_if (can_view_revisions page_perms)
    (Button "Revisions"
       (reverse "wagtailadmin_pages:revisions_index" [page_id page])
       {[ "title" := "View revision history for '" +:+ title +:+ "'" ]}
       None 50)
  ++ yield_if (can_view_revisions page_perms)
    (Button "History"
       (reverse "wagtailadmin_pages:history" [page_id page])
       {[ "title" := "View page history for '" +:+ title +:+ "'" ]}
       None 50).

End Buttons.

(** How many of the yielded widgets carry a given label. *)
Definition count_label (l : string) (ws : list widget) : nat :=
  length (filter (fun x => x = l) (map widget_label ws)).

(** ** Menu items, search area and account menu entries (lines 35-116,
    235-301, 647-689) *)

(** The menu item classes this file declares. *)
Inductive menu_class :=
| ExplorerMenuItem
| SettingsMenuItem
| PageSearchArea
| CollectionsMenuItem
| WorkflowsMenuItem
| ReportsMenuItem
| LockedPagesMenuItem
| WorkflowReportMenuItem
| SiteHistoryReportMenuItem.

(** What an item points to: a reversed URL, or a submenu registry. *)
Inductive menu_target :=
| Url (u : string)
| Submenu (registry : string).

Record menu_item := MenuItem {
  item_class : menu_class;
  item_label : string;
  item_target : menu_target;
  item_name : option string;
  icon_name : option string;
  classnames : option string;
  order : Z;
}.

(** An entry of the account page: the dict an account hook returns. *)
Record account_item := AccountItem {
  account_url : string;
  account_label : string;
  help_text : string;
}.

Section Menus.

Variable reverse : string -> list Z -> string.

(** The principal of a request and the capability checks of the host,
    each standing for the result the host returns. *)
Variable user : Type.
Variable user_has_any_page_permission : user -> bool.
Variable collection_user_has_any_permission : user -> list string -> bool.
Variable workflow_user_has_any_permission : user -> list string -> bool.
Variable can_remove_locks : user -> bool.
Variable explorable_pages_exists : user -> bool.
Variable can_edit_pages : user -> bool.
Variable can_publish_pages : user -> bool.
Variable has_usable_password : user -> bool.
Variable email_management_enabled : bool.
Variable password_management_enabled : bool.
Variable get_available_admin_languages : list (string * string).
Variable get_available_admin_time_zones : list string.
(** [SubmenuMenuItem.is_shown], inherited unchanged by the settings and
    reports items. *)
Variable SubmenuMenuItem_is_shown : menu_item -> user -> bool.

Record request := Request { request_user : user }.

(** Method dispatch of [item.is_shown(request)] on the item's class. *)
Definition is_shown (item : menu_item) (request : request) : bool :=
  let u := request_user request in
  match item_class item with
  | ExplorerMenuItem => user_has_any_page_permission u
  | PageSearchArea => user_has_any_page_permission u
  | CollectionsMenuItem =>
      collection_user_has_any_permission u ["add"; "change"; "delete"]
  | WorkflowsMenuItem =>
      workflow_user_has_any_permission u ["add"; "change"; "delete"]
  | LockedPagesMenuItem => can_remove_locks u
  | WorkflowReportMenuItem => true
  | SiteHistoryReportMenuItem => explorable_pages_exists u
  | SettingsMenuItem | ReportsMenuItem => SubmenuMenuItem_is_shown item u
  end.

Definition register_explorer_menu_item : menu_item :=
  MenuItem ExplorerMenuItem "Pages" (Url (reverse "wagtailadmin_explore_root" []))
    (Some "explorer") (Some "folder-open-inverse") None 100.

Definition register_settings_menu : menu_item :=
  MenuItem SettingsMenuItem "Settings" (Submenu "settings_menu")
    None (Some "cogs") None 10000.

Definition register_pages_search_area : menu_item :=
  MenuItem PageSearchArea "Pages" (Url (reverse "wagtailadmin_pages:search" []))
    (Some "pages") None (Some "icon icon-folder-open-inverse") 100.

Definition register_collections_menu_item : menu_item :=
  MenuItem CollectionsMenuItem "Collections"
    (Url (reverse "wagtailadmin_collections:index" []))
    None (Some "folder-open-1") None 700.

Definition register_workflows_menu_item : menu_item :=
  MenuItem WorkflowsMenuItem "Workflows"
    (Url (reverse "wagtailadmin_workflows:index" []))
    None (Some "clipboard-list") None 100.

Definition register_locked_pages_menu_item : menu_item :=
  MenuItem LockedPagesMenuItem "Locked Pages"
    (Url (reverse "wagtailadmin_reports:locked_pages" []))
    None None (Some "icon icon-locked") 700.

Definition register_workflow_report_menu_item : menu_item :=
  MenuItem WorkflowReportMenuItem "Workflows"
    (Url (reverse "wagtailadmin_reports:workflow" []))
    None None (Some "icon icon-clipboard-list") 800.

Definition register_workflow_tasks_report_menu_item : menu_item :=
  MenuItem WorkflowReportMenuItem "Workflow tasks"
    (Url (reverse "wagtailadmin_reports:workflow_tasks" []))
    None None (Some "icon icon-clipboard-list") 900.

Definition register_site_history_report_menu_item : menu_item :=
  MenuItem SiteHistoryReportMenuItem "Site history"
    (Url (reverse "wagtailadmin_reports:site_history" []))
    None None (Some "icon icon-cogs") 1000.

Definition register_reports_menu : menu_item :=
  MenuItem ReportsMenuItem "Reports" (Submenu "reports_menu")
    None None (Some "icon icon-site") 9000.

(** The items this file contributes to a menu hook, in source order. *)
Definition menu_hook (hook_name : string) : list menu_item :=
  if decide (hook_name = "register_admin_menu_item") then
    [register_explorer_menu_item; register_settings_menu; register_reports_menu]
  else if decide (hook_name = "register_admin_search_area") then
    [register_pages_search_area]
  else if decide (hook_name = "register_settings_menu_item") then
    [register_collections_menu_item; register_workflows_menu_item]
  else if decide (hook_name = "register_reports_menu_item") then
    [register_locked_pages_menu_item; register_workflow_report_menu_item;
     register_workflow_tasks_report_menu_item;
     register_site_history_report_menu_item]
  else [].

(** Modelled from the spec: the host's menu rendering
    ([wagtail/admin/menu.py], which is not among the sources). The spec
    gives a menu item a visibility predicate over the request and says
    an item is present iff the predicate returns true; the rendered
    menu keeps the registered items whose [is_shown] holds. *)
Definition menu_items_for_request (registered : list menu_item) (request : request)
  : list menu_item :=
  filter (fun item => is_shown item request = true) registered.

(** Account menu hooks: a function without a [return] on some path
    returns [None] there. *)
Definition register_account_set_profile_picture (_ : request) : option account_item :=
  Some (AccountItem (reverse "wagtailadmin_account_change_avatar" [])
          "Set profile picture" "Change your profile picture.").

Definition register_account_change_email (_ : request) : option account_item :=
  if email_management_enabled then
    Some (AccountItem (reverse "wagtailadmin_account_change_email" [])
            "Change email" "Change the email address linked to your account.")
  else None.

Definition register_account_change_password (request : request) : option account_item :=
  if password_management_enabled && has_usable_password (request_user request) then
    Some (AccountItem (reverse "wagtailadmin_account_change_password" [])
            "Change password" "Change the password you use to log in.")
  else None.

Definition register_account_notification_preferences (request : request)
  : option account_item :=
  let user_perms := request_user request in
  if can_edit_pages user_perms || can_publish_pages user_perms then
    Some (AccountItem (reverse "wagtailadmin_account_notification_preferences" [])
            "Notification preferences" "Choose which email notifications to receive.")
  else None.

Definition register_account_preferred_language_preferences (_ : request)
  : option account_item :=
  if bool_decide (1 < length get_available_admin_languages)%nat then
    Some (AccountItem (reverse "wagtailadmin_account_language_preferences" [])
            "Language preferences" "Choose the language you want to use here.")
  else None.

Definition register_account_current_time_zone (_ : request) : option account_item :=
  if bool_decide (1 < length get_available_admin_time_zones)%nat then
    Some (AccountItem (reverse "wagtailadmin_account_current_time_zone" [])
            "Current Time Zone" "Choose your current time zone.")
  else None.

Definition register_account_change_name (_ : request) : option account_item :=
  Some (AccountItem (reverse "wagtailadmin_account_change_name" [])
          "Change name" "Change your first and last name on your account.").

End Menus.

(** ** Rich-text features (lines 304-644) *)

(** Editor plugin descriptors, with the arguments the file passes.
    The option dict of a Draftail feature is kept as the JSON object
    it is serialised to. *)
Inductive plugin :=
| HalloPlugin (name : string) (js : list string) (order : option Z)
| HalloFormatPlugin (format_name : string)
| HalloHeadingPlugin (element : string) (order : Z)
| HalloListPlugin (list_type : string)
| BooleanFeature (option_name : string)
| BlockFeature (data : gmap string json)
| InlineStyleFeature (data : gmap string json)
| EntityFeature (data : gmap string json) (js : list string).

(** Attribute checks and whitelist functions of [wagtail.core.whitelist]. *)
Inductive attribute_check :=
| check_url.

Inductive whitelist_fn :=
| allow_without_attributes
| attribute_rule (allowed_attrs : gmap string attribute_check).

Inductive link_handler :=
| PageLinkHandler.

Inductive editor_html_rule :=
| WhitelistRule (element : string) (handler : whitelist_fn)
| LinkTypeRule (link_type : string) (handler : link_handler).

(** Element handlers of [html_to_contentstate], with the node type each
    is constructed with (two of them take none). *)
Inductive element_handler :=
| HorizontalRuleHandler
| BlockElementHandler (block_type : string)
| ListElementHandler (list_item_type : string)
| ListItemElementHandler
| InlineStyleElementHandler (style : string)
| ExternalLinkElementHandler (entity_type : string)
| PageLinkElementHandler (entity_type : string).

(** A [block_map] value: a tag, or an element inside a wrapper. *)
Inductive block_target :=
| Tag (tag : string)
| ElementWrapper (element wrapper : string).

(** An [entity_decorators] value: the lambda creating an element of a
    fixed tag, or the imported [link_entity]. *)
Inductive decorator :=
| create_element (tag : string)
| link_entity.

(** The [to_database_format] dict; a key the source leaves out is the
    empty map. *)
Record to_database_format := ToDatabaseFormat {
  block_map : gmap string block_target;
  style_map : gmap string string;
  entity_decorators : gmap string decorator;
}.

Definition with_block_map (m : gmap string block_target) : to_database_format :=
  ToDatabaseFormat m ∅ ∅.
Definition with_style_map (m : gmap string string) : to_database_format :=
  ToDatabaseFormat ∅ m ∅.
Definition with_entity_decorators (m : gmap string decorator) : to_database_format :=
  ToDatabaseFormat ∅ ∅ m.

Inductive converter_rule :=
| EditorHtml (rules : list editor_html_rule)
| ContentState (from_database_format : gmap string element_handler)
    (to_db : to_database_format).

(** The feature registry: the calls received so far, oldest first, as
    (editor or converter name, feature name, value). *)
Record feature_registry := FeatureRegistry {
  editor_plugins : list (string * string * plugin);
  converter_rules : list (string * string * converter_rule);
}.

Definition register_editor_plugin (editor feature : string) (p : plugin)
    (features : feature_registry) : feature_registry :=
  FeatureRegistry (editor_plugins features ++ [(editor, feature, p)])
                  (converter_rules features).

Definition register_converter_rule (converter feature : string) (r : converter_rule)
    (features : feature_registry) : feature_registry :=
  FeatureRegistry (editor_plugins features)
                  (converter_rules features ++ [(converter, feature, r)]).

(** [enumerate(l, start=start)] *)
Definition enumerate {A} (l : list A) (start : Z) : list (Z * A) :=
  zip (seqZ start (Z.of_nat (length l))) l.

(** [gettext('Heading %(level)d') % {'level': n}] *)
Definition heading_description (level : Z) : json :=
  JStr ("Heading " +:+ pretty level).

(** The double-quote character of the selector [a[linktype="page"]]. *)
Definition dquote : string := String (Ascii.ascii_of_nat 34) EmptyString.

Section Features.

(** [HalloHeadingPlugin.default_order], a class attribute of the host. *)
Variable HalloHeadingPlugin_default_order : Z.

Definition headings_elements : list string := ["h1"; "h2"; "h3"; "h4"; "h5"; "h6"].

Definition register_core_features : feature_registry -> feature_registry :=
  run [
    (* Hallo.js *)
    register_editor_plugin "hallo" "hr"
      (HalloPlugin "hallohr" ["wagtailadmin/js/hallo-plugins/hallo-hr.js"] (Some 45));
    register_converter_rule "editorhtml" "hr"
      (EditorHtml [WhitelistRule "hr" allow_without_attributes]);

    register_editor_plugin "hallo" "link"
      (HalloPlugin "hallowagtaillink"
         ["wagtailadmin/js/page-chooser-modal.js";
          "wagtailadmin/js/hallo-plugins/hallo-wagtaillink.js"] None);
    register_converter_rule "editorhtml" "link"
      (EditorHtml [WhitelistRule "a" (attribute_rule {[ "href" := check_url ]});
                   LinkTypeRule "page" PageLinkHandler]);

    register_editor_plugin "hallo" "bold" (HalloFormatPlugin "bold");
    register_converter_rule "editorhtml" "bold"
      (EditorHtml [WhitelistRule "b" allow_without_attributes;
                   WhitelistRule "strong" allow_without_attributes]);

    register_editor_plugin "hallo" "italic" (HalloFormatPlugin "italic");
    register_converter_rule "editorhtml" "italic"
      (EditorHtml [WhitelistRule "i" allow_without_attributes;
                   WhitelistRule "em" allow_without_attributes]);

    (fun features =>
       foldl (fun features '(order, element) =>
                register_converter_rule "editorhtml" element
                  (EditorHtml [WhitelistRule element allow_without_attributes])
                  (register_editor_plugin "hallo" element
                     (HalloHeadingPlugin element order) features))
             features
             (enumerate headings_elements (HalloHeadingPlugin_default_order + 1)));

    register_editor_plugin "hallo" "ol" (HalloListPlugin "ordered");
    register_converter_rule "editorhtml" "ol"
      (EditorHtml [WhitelistRule "ol" allow_without_attributes;
                   WhitelistRule "li" allow_without_attributes]);

    register_editor_plugin "hallo" "ul" (HalloListPlugin "unordered");
    register_converter_rule "editorhtml" "ul"
      (EditorHtml [WhitelistRule "ul" allow_without_attributes;
                   WhitelistRule "li" allow_without_attributes]);

    (* Draftail *)
    register_editor_plugin "draftail" "hr" (BooleanFeature "enableHorizontalRule");
    register_converter_rule "contentstate" "hr"
      (ContentState {[ "hr" := HorizontalRuleHandler ]}
         (with_entity_decorators {[ "HORIZONTAL_RULE" := create_element "hr" ]}));

    register_editor_plugin "draftail" "h1"
      (BlockFeature {[ "label" := JStr "H1"; "type" := JStr "header-one";
                       "description" := heading_description 1 ]});
    register_converter_rule "contentstate" "h1"
      (ContentState {[ "h1" := BlockElementHandler "header-one" ]}
         (with_block_map {[ "header-one" := Tag "h1" ]}));
    register_editor_plugin "draftail" "h2"
      (BlockFeature {[ "label" := JStr "H2"; "type" := JStr "header-two";
                       "description" := heading_description 2 ]});
    register_converter_rule "contentstate" "h2"
      (ContentState {[ "h2" := BlockElementHandler "header-two" ]}
         (with_block_map {[ "header-two" := Tag "h2" ]}));
    register_editor_plugin "draftail" "h3"
      (BlockFeature {[ "label" := JStr "H3"; "type" := JStr "header-three";
                       "description" := heading_description 3 ]});
    register_converter_rule "contentstate" "h3"
      (ContentState {[ "h3" := BlockElementHandler "header-three" ]}
         (with_block_map {[ "header-three" := Tag "h3" ]}));
    register_editor_plugin "draftail" "h4"
      (BlockFeature {[ "label" := JStr "H4"; "type" := JStr "header-four";
                       "description" := heading_description 4 ]});
    register_converter_rule "contentstate" "h4"
      (ContentState {[ "h4" := BlockElementHandler "header-four" ]}
         (with_block_map {[ "header-four" := Tag "h4" ]}));
    register_editor_plugin "draftail" "h5"
      (BlockFeature {[ "label" := JStr "H5"; "type" := JStr "header-five";
                       "description" := heading_description 5 ]});
    register_converter_rule "contentstate" "h5"
      (ContentState {[ "h5" := BlockElementHandler "header-five" ]}
         (with_block_map {[ "header-five" := Tag "h5" ]}));
    register_editor_plugin "draftail" "h6"
      (BlockFeature {[ "label" := JStr "H6"; "type" := JStr "header-six";
                       "description" := heading_description 6 ]});
    register_converter_rule "contentstate" "h6"
      (ContentState {[ "h6" := BlockElementHandler "header-six" ]}
         (with_block_map {[ "header-six" := Tag "h6" ]}));
    register_editor_plugin "draftail" "ul"
      (BlockFeature {[ "type" := JStr "unordered-list-item"; "icon" := JStr "list-ul";
                       "description" := JStr "Bulleted list" ]});
    register_converter_rule "contentstate" "ul"
      (ContentState {[ "ul" := ListElementHandler "unordered-list-item";
                       "li" := ListItemElementHandler ]}
         (with_block_map {[ "unordered-list-item" := ElementWrapper "li" "ul" ]}));
    register_editor_plugin "draftail" "ol"
      (BlockFeature {[ "type" := JStr "ordered-list-item"; "icon" := JStr "list-ol";
                       "description" := JStr "Numbered list" ]});
    register_converter_rule "contentstate" "ol"
      (ContentState {[ "ol" := ListElementHandler "ordered-list-item";
                       "li" := ListItemElementHandler ]}
         (with_block_map {[ "ordered-list-item" := ElementWrapper "li" "ol" ]}));
    register_editor_plugin "draftail" "blockquote"
      (BlockFeature {[ "type" := JStr "blockquote"; "icon" := JStr "openquote";
                       "description" := JStr "Blockquote" ]});
    register_converter_rule "contentstate" "blockquote"
      (ContentState {[ "blockquote" := BlockElementHandler "blockquote" ]}
         (with_block_map {[ "blockquote" := Tag "blockquote" ]}));

    register_editor_plugin "draftail" "bold"
      (InlineStyleFeature {[ "type" := JStr "BOLD"; "icon" := JStr "bold";
                             "description" := JStr "Bold" ]});
    register_converter_rule "contentstate" "bold"
      (ContentState {[ "b" := InlineStyleElementHandler "BOLD";
                       "strong" := InlineStyleElementHandler "BOLD" ]}
         (with_style_map {[ "BOLD" := "b" ]}));
    register_editor_plugin "draftail" "italic"
      (InlineStyleFeature {[ "type" := JStr "ITALIC"; "icon" := JStr "italic";
                             "description" := JStr "Italic" ]});
    register_converter_rule "contentstate" "italic"
      (ContentState {[ "i" := InlineStyleElementHandler "ITALIC";
                       "em" := InlineStyleElementHandler "ITALIC" ]}
         (with_style_map {[ "ITALIC" := "i" ]}));

    register_editor_plugin "draftail" "link"
      (EntityFeature
         {[ "type" := JStr "LINK"; "icon" := JStr "link";
            "description" := JStr "Link";
            "attributes" := JList [JStr "url"; JStr "id"; JStr "parentId"];
            "whitelist" := JDict {[ "href" := JStr "^(http:|https:|undefined$)" ]} ]}
         ["wagtailadmin/js/page-chooser-modal.js"]);
    register_converter_rule "contentstate" "link"
      (ContentState {[ "a[href]" := ExternalLinkElementHandler "LINK";
                       "a[linktype=" +:+ dquote +:+ "page" +:+ dquote +:+ "]"
                         := PageLinkElementHandler "LINK" ]}
         (with_entity_decorators {[ "LINK" := link_entity ]}));
    register_editor_plugin "draftail" "superscript"
      (InlineStyleFeature {[ "type" := JStr "SUPERSCRIPT"; "icon" := JStr "superscript";
                             "description" := JStr "Superscript" ]});
    register_converter_rule "contentstate" "superscript"
      (ContentState {[ "sup" := InlineStyleElementHandler "SUPERSCRIPT" ]}
         (with_style_map {[ "SUPERSCRIPT" := "sup" ]}));
    register_editor_plugin "draftail" "subscript"
      (InlineStyleFeature {[ "type" := JStr "SUBSCRIPT"; "icon" := JStr "subscript";
                             "description" := JStr "Subscript" ]});
    register_converter_rule "contentstate" "subscript"
      (ContentState {[ "sub" := InlineStyleElementHandler "SUBSCRIPT" ]}
         (with_style_map {[ "SUBSCRIPT" := "sub" ]}));
    register_editor_plugin "draftail" "strikethrough"
      (InlineStyleFeature {[ "type" := JStr "STRIKETHROUGH"; "icon" := JStr "strikethrough";
                             "description" := JStr "Strikethrough" ]});
    register_converter_rule "contentstate" "strikethrough"
      (ContentState {[ "s" := InlineStyleElementHandler "STRIKETHROUGH" ]}
         (with_style_map {[ "STRIKETHROUGH" := "s" ]}));
    register_editor_plugin "draftail" "code"
      (InlineStyleFeature {[ "type" := JStr "CODE"; "icon" := JStr "code";
                             "description" := JStr "Code" ]});
    register_converter_rule "contentstate" "code"
      (ContentState {[ "code" := InlineStyleElementHandler "CODE" ]}
         (with_style_map {[ "CODE" := "code" ]}))
  ].

End Features.

(** ** register_icons (lines 692-775) *)

Definition icon_files : list string :=
  [
    "arrow-down-big.svg"; "arrow-down.svg"; "arrow-left.svg";
    "arrow-right.svg"; "arrow-up-big.svg"; "arrow-up.svg";
    "arrows-up-down.svg"; "bin.svg"; "bold.svg"; "chain-broken.svg";
    "clipboard-list.svg"; "code.svg"; "cog.svg"; "cogs.svg";
    "collapse-down.svg"; "collapse-up.svg"; "cross.svg"; "date.svg";
    "doc-empty-inverse.svg"; "doc-empty.svg"; "doc-full-inverse.svg";
    "doc-full.svg"; "download.svg"; "edit.svg"; "failure.svg";
    "folder-inverse.svg"; "folder-open-1.svg"; "folder-open-inverse.svg";
    "folder.svg"; "form.svg"; "grip.svg"; "group.svg"; "help.svg"; "home.svg";
    "horizontalrule.svg"; "image.svg"; "italic.svg"; "link.svg";
    "list-ol.svg"; "list-ul.svg"; "lock-open.svg"; "lock.svg"; "logout.svg";
    "mail.svg"; "media.svg"; "no-view.svg"; "openquote.svg"; "order-down.svg";
    "order-up.svg"; "order.svg"; "password.svg"; "pick.svg"; "pilcrow.svg";
    "placeholder.svg"; "plus-inverse.svg"; "plus.svg"; "radio-empty.svg";
    "radio-full.svg"; "redirect.svg"; "repeat.svg"; "search.svg"; "site.svg";
    "snippet.svg"; "spinner.svg"; "success.svg"; "table.svg"; "tag.svg";
    "tick-inverse.svg"; "tick.svg"; "time.svg"; "title.svg"; "undo.svg";
    "uni52.svg"; "user.svg"; "view.svg"; "wagtail-inverse.svg"; "wagtail.svg";
    "warning.svg"
  ].

(** [icons.append('wagtailadmin/icons/{}'.format(icon))] for each file in
    turn, on the list received; the list is returned. *)
Definition register_icons (icons : list string) : list string :=
  foldl (fun icons icon => icons ++ ["wagtailadmin/icons/" +:+ icon]) icons icon_files.

(** ** The pattern language of the link whitelist (line 570)

    The whitelist of the Draftail link feature is handed to the editor,
    whose paste filter keeps an entity when [new RegExp(pattern).test(value)]
    holds for each whitelisted attribute. The fragment below covers the
    constructs the pattern of this file uses: literal characters,
    alternation, grouping, and the anchors [^] and [$], which without
    flags match only at the start and at the end of the input. *)
Module RegExp.

Inductive regex :=
| Empty
| Char (c : ascii)
| StartAnchor
| EndAnchor
| Concat (a b : regex)
| Or (a b : regex).

Definition is_meta (c : ascii) : bool :=
  existsb (Ascii.eqb c) (String.list_ascii_of_string ".*+?[]{}\").

(** Recursive descent on the pattern: a disjunction of sequences of
    atoms. A construct outside the fragment makes the parse fail. *)
Fixpoint parse_disjunction (fuel : nat) (p : string) : option (regex * string) :=
  match fuel with
  | O => None
  | S fuel =>
      '(a, rest) ← parse_sequence fuel p;
      match rest with
      | String "|" rest' =>
          '(b, rest'') ← parse_disjunction fuel rest';
          Some (Or a b, rest'')
      | _ => Some (a, rest)
      end
  end
with parse_sequence (fuel : nat) (p : string) : option (regex * string) :=
  match fuel with
  | O => None
  | S fuel =>
      match p with
      | EmptyString => Some (Empty, p)
      | String c rest =>
          if Ascii.eqb c "|" || Ascii.eqb c ")" then Some (Empty, p)
          else if Ascii.eqb c "(" then
            '(a, r1) ← parse_disjunction fuel rest;
            match r1 with
            | String ")" r2 =>
                '(b, r3) ← parse_sequence fuel r2;
                Some (Concat a b, r3)
            | _ => None
            end
          else if is_meta c then None
          else
            let atom := if Ascii.eqb c "^" then StartAnchor
                        else if Ascii.eqb c "$" then EndAnchor
                        else Char c in
            '(b, r) ← parse_sequence fuel rest;
            Some (Concat atom b, r)
      end
  end.

Definition compile (pattern : string) : option regex :=
  match parse_disjunction (S (2 * String.length pattern)) pattern with
  | Some (r, EmptyString) => Some r
  | _ => None
  end.

(** Backtracking match of [r] at the head of [s]; [at_start] tells
    whether the head of [s] is the start of the input, and [k] is what
    remains to be matched afterwards. *)
Fixpoint matches (r : regex) (at_start : bool) (s : string)
    (k : bool -> string -> bool) : bool :=
  match r with
  | Empty => k at_start s
  | Char c =>
      match s with
      | String c' s' => if Ascii.eqb c c' then k false s' else false
      | EmptyString => false
      end
  | StartAnchor => at_start && k at_start s
  | EndAnchor =>
      match s with
      | EmptyString => k at_start s
      | String _ _ => false
      end
  | Concat a b => matches a at_start s (fun st s' => matches b st s' k)
  | Or a b => matches a at_start s k || matches b at_start s k
  end.

(** A match may begin at any offset of the input. *)
Fixpoint search (r : regex) (at_start : bool) (s : string) : bool :=
  matches r at_start s (fun _ _ => true)
  || match s with
     | String _ s' => search r false s'
     | EmptyString => false
     end.

(** [new RegExp(pattern).test(s)]; [None] when the pattern is not in the
    fragment. *)
Definition test (pattern s : string) : option bool :=
  r ← compile pattern; Some (search r true s).

End RegExp.

(** Whether an entity feature keeps a pasted entity with the given
    value for attribute [attr], by the pattern its whitelist has for
    that attribute; [None] when the feature has no such pattern. *)
Definition whitelist_accepts (p : plugin) (attr value : string) : option bool :=
  match p with
  | EntityFeature data _ =>
      match data !! "whitelist" with
      | Some (JDict whitelist) =>
          match whitelist !! attr with
          | Some (JStr pattern) => RegExp.test pattern value
          | _ => None
          end
      | _ => None
      end
  | _ => None
  end.

(** The value last registered for a (name, feature) pair. *)
Definition registered {A} (calls : list (string * string * A)) (name feature : string)
  : option A :=
  snd <$> last (filter (fun c => c.1 = (name, feature)) calls).

(** ** What a formatter reads

    The description of a formatter used to state its fallback: the
    subscript chains it evaluates on the data, in evaluation order, the
    format strings of its detailed messages and its generic message. *)
Definition path := list string.

(** [data[k1][k2]...] *)
Fixpoint walk (v : json) (p : path) : result json :=
  match p with
  | [] => Ok v
  | key :: p' => x ← getitem v key; walk x p'
  end.

(** The exception of the first chain that fails, if any does. *)
Fixpoint first_failure (data : json) (paths : list path) : option exn :=
  match paths with
  | [] => None
  | p :: paths' =>
      match walk data p with
      | Ok _ => first_failure data paths'
      | Raise e => Some e
      end
  end.

Record formatter_doc := FormatterDoc {
  reads : json -> list path;
  templates : list string;
  generic : string;
}.

(** Chains read after a test on the value at [cond]: [yes] when it is
    true, [no] when false, none when the test itself fails. *)
Definition reads_if (cond : path) (yes no : list path) (data : json) : list path :=
  cond :: match walk data cond with
          | Ok v => if truthy v then yes else no
          | Raise _ => []
          end.

Definition formatter_docs : list (string * formatter_doc) :=
  [ ("wagtail.revert",
     FormatterDoc (fun _ => [["revision"; "id"]; ["revision"; "created"]])
       ["Reverted to previous revision with id {revision_id} from {created_at}"]
       "Reverted to previous revision");
    ("wagtail.schedule.revert",
     FormatterDoc
       (fun _ => [["revision"; "id"]; ["revision"; "created"]; ["revision"; "go_live_at"]])
       ["Scheduled revision {revision_id} from {created_at} for publishing at {go_live_at}."]
       "Revision scheduled for publishing");
    ("wagtail.copy",
     FormatterDoc (fun _ => [["source"; "title"]])
       ["Copied from {title}"] "Copied");
    ("wagtail.move",
     FormatterDoc (fun _ => [["source"; "title"]; ["destination"; "title"]])
       ["Moved from '{old_parent}' to '{new_parent}'"] "Moved");
    ("wagtail.schedule.publish",
     FormatterDoc
       (reads_if ["revision"; "has_live_version"]
          [["revision"; "id"]; ["revision"; "created"]; ["revision"; "go_live_at"]]
          [["revision"; "go_live_at"]])
       ["Revision {revision_id} from {created_at} scheduled for publishing at {go_live_at}.";
        "Page scheduled for publishing at {go_live_at}"]
       "Page scheduled for publishing");
    ("wagtail.schedule.cancel",
     FormatterDoc
       (reads_if ["revision"; "has_live_version"]
          [["revision"; "id"]; ["revision"; "created"]; ["revision"; "go_live_at"]]
          [["revision"; "go_live_at"]])
       ["Revision {revision_id} from {created_at} unscheduled from publishing at {go_live_at}.";
        "Page unscheduled for publishing at {go_live_at}"]
       "Page unscheduled from publishing");
    ("wagtail.view_restriction.create",
     FormatterDoc (fun _ => [["restriction"; "title"]])
       ["Added the '{restriction}' view restriction"] "Added view restriction");
    ("wagtail.view_restriction.edit",
     FormatterDoc (fun _ => [["restriction"; "title"]])
       ["Updated the view restriction to '{restriction}'"] "Updated view restriction");
    ("wagtail.view_restriction.delete",
     FormatterDoc (fun _ => [["restriction"; "title"]])
       ["Removed the view restriction to '{restriction}'"] "Removed view restriction");
    ("wagtail.workflow.start",
     FormatterDoc (fun _ => [["workflow"; "title"]; ["workflow"; "next"; "title"]])
       ["'{workflow}' started. Next step '{task}'"] "Workflow started");
    ("wagtail.workflow.approve",
     FormatterDoc
       (reads_if ["workflow"; "next"]
          [["workflow"; "task"; "title"]; ["workflow"; "next"; "title"]]
          [["workflow"; "task"; "title"]; ["workflow"; "title"]])
       ["Approved at '{task}'. Next step '{next_task}'";
        "Approved at '{task}'. '{workflow}' complete"]
       "Workflow task approved");
    ("wagtail.workflow.reject",
     FormatterDoc (fun _ => [["workflow"; "task"; "title"]])
       ["Rejected at '{task}'. Workflow complete"]
       "Workflow task rejected. Workflow complete") ].

Definition doc_of (code : string) : option formatter_doc :=
  snd <$> find (fun e => String.eqb e.1 code) formatter_docs.

(** The formatters of [register_workflow_log_actions]. *)
Definition is_workflow_action (code : string) : bool :=
  String.prefix "wagtail.workflow." code.

(** ** The detailed message of a formatter

    The description of the detailed message: its format string and,
    for each keyword argument in the order of the call, its name and
    the chain its value is read from. A formatter with a test has one
    such message for each outcome of the test. *)
Record detailed_message := DetailedMessage {
  template : string;
  arguments : list (string * path);
}.

Inductive message_doc :=
| Always (message : detailed_message)
| Branch (cond : path) (yes no : detailed_message).

Definition message_docs : list (string * message_doc) :=
  let revision_message (t : string) :=
    DetailedMessage t
      [("revision_id", ["revision"; "id"]);
       ("created_at", ["revision"; "created"]);
       ("go_live_at", ["revision"; "go_live_at"])] in
  let page_message (t : string) :=
    DetailedMessage t [("go_live_at", ["revision"; "go_live_at"])] in
  let restriction_message (t : string) :=
    DetailedMessage t [("restriction", ["restriction"; "title"])] in
  [ ("wagtail.revert",
     Always (DetailedMessage
               "Reverted to previous revision with id {revision_id} from {created_at}"
               [("revision_id", ["revision"; "id"]);
                ("created_at", ["revision"; "created"])]));
    ("wagtail.schedule.revert",
     Always (revision_message
               "Scheduled revision {revision_id} from {created_at} for publishing at {go_live_at}."));
    ("wagtail.copy",
     Always (DetailedMessage "Copied from {title}" [("title", ["source"; "title"])]));
    ("wagtail.move",
     Always (DetailedMessage "Moved from '{old_parent}' to '{new_parent}'"
               [("old_parent", ["source"; "title"]);
                ("new_parent", ["destination"; "title"])]));
    ("wagtail.schedule.publish",
     Branch ["revision"; "has_live_version"]
       (revision_message
          "Revision {revision_id} from {created_at} scheduled for publishing at {go_live_at}.")
       (page_message "Page scheduled for publishing at {go_live_at}"));
    ("wagtail.schedule.cancel",
     Branch ["revision"; "has_live_version"]
       (revision_message
          "Revision {revision_id} from {created_at} unscheduled from publishing at {go_live_at}.")
       (page_message "Page unscheduled for publishing at {go_live_at}"));
    ("wagtail.view_restriction.create",
     Always (restriction_message "Added the '{restriction}' view restriction"));
    ("wagtail.view_restriction.edit",
     Always (restriction_message "Updated the view restriction to '{restriction}'"));
    ("wagtail.view_restriction.delete",
     Always (restriction_message "Removed the view restriction to '{restriction}'"));
    ("wagtail.workflow.start",
     Always (DetailedMessage "'{workflow}' started. Next step '{task}'"
               [("workflow", ["workflow"; "title"]);
                ("task", ["workflow"; "next"; "title"])]));
    ("wagtail.workflow.approve",
     Branch ["workflow"; "next"]
       (DetailedMessage "Approved at '{task}'. Next step '{next_task}'"
          [("task", ["workflow"; "task"; "title"]);
           ("next_task", ["workflow"; "next"; "title"])])
       (DetailedMessage "Approved at '{task}'. '{workflow}' complete"
          [("task", ["workflow"; "task"; "title"]);
           ("workflow", ["workflow"; "title"])]));
    ("wagtail.workflow.reject",
     Always (DetailedMessage "Rejected at '{task}'. Workflow complete"
               [("task", ["workflow"; "task"; "title"])])) ].

Definition message_doc_of (code : string) : option message_doc :=
  snd <$> find (fun e => String.eqb e.1 code) message_docs.

(** The detailed message that applies to [data]: the one of the branch
    the test selects; none when the test itself cannot be read. *)
Definition chosen (md : message_doc) (data : json) : option detailed_message :=
  match md with
  | Always message => Some message
  | Branch cond yes no =>
      match walk data cond with
      | Ok v => Some (if truthy v then yes else no)
      | Raise _ => None
      end
  end.

(** The chains a formatter so described evaluates on [data], in order:
    the test, if any, then the arguments of the message chosen. *)
Definition chains (md : message_doc) (data : json) : list path :=
  match md with
  | Always message => (arguments message).*2
  | Branch cond _ _ =>
      cond :: match chosen md data with
              | Some message => (arguments message).*2
              | None => []
              end
  end.

(** What a description prescribes for [f] on [data]. *)
Definition prescribes (catches_type_error : bool) (d : formatter_doc)
    (md : message_doc) (f : json -> result lazy_str) (data : json) : Prop :=
  reads d data = chains md data
  /\ (first_failure data (reads d data) = None ->
        exists message values,
          chosen md data = Some message
          /\ In (template message) (templates d)
          /\ Forall2 (fun arg v => walk data arg.2 = Ok v) (arguments message) values
          /\ f data = Ok (format_lazy (template message)
                            (zip (arguments message).*1 values)))
  /\ (forall key, first_failure data (reads d data) = Some (KeyError key) ->
        f data = Ok (gettext_lazy (generic d)))
  /\ (first_failure data (reads d data) = Some TypeError ->
        f data = if catches_type_error then Ok (gettext_lazy (generic d))
                 else Raise TypeError)
  /\ (forall key, f data <> Raise (KeyError key)).

(** ** Notions used to state the properties *)

(** The number of times a guarded widget is yielded. *)
Definition once_if (cond : bool) : nat := if cond then 1%nat else 0%nat.

(** The registry before any hook ran. *)
Definition no_features : feature_registry := FeatureRegistry [] [].

#[export] Instance element_handler_eq_dec : EqDecision element_handler.
Proof. solve_decision. Defined.


(** The pattern matching the characters of [w] and then [tail]. *)
Fixpoint literal (w : string) (tail : RegExp.regex) : RegExp.regex :=
  match w with
  | EmptyString => tail
  | String c w' => RegExp.Concat (RegExp.Char c) (literal w' tail)
  end.

(** What is left of [s] after its prefix [w], if [w] is one. *)
Fixpoint strip_prefix (w s : string) : option string :=
  match w, s with
  | EmptyString, _ => Some s
  | String c w', String c' s' => if Ascii.eqb c c' then strip_prefix w' s' else None
  | String _ _, EmptyString => None
  end.

(** ** ExplorerMenuItem.get_context (lines 41-48)

    [super().get_context(request)] and
    [get_explorable_root_page(request.user)] are results of the host;
    a page object is true, [None] is not. *)
Definition get_context (super_context : gmap string json) (start_page : option page)
  : gmap string json :=
  match start_page with
  | Some start_page => <[ "start_page_id" := JInt (page_id start_page) ]> super_context
  | None => super_context
  end.

(** ** Rendering a lazy string

    A lazy string is rendered when the log entry is displayed:
    [format_lazy] then formats the format string with the keyword
    arguments, as [str.format] does. The
    format strings of this file hold text and [{name}] fields only; a
    field without a keyword argument raises [KeyError], a brace that
    is not part of a field [ValueError]. [str] is the conversion of a
    value to text. *)
Inductive rendering :=
| Rendered (text : string)
| FormatKeyError (field : string)
| FormatValueError.

Definition then_text (prefix : string) (r : rendering) : rendering :=
  match r with
  | Rendered text => Rendered (prefix +:+ text)
  | other => other
  end.

Definition kwarg (kwargs : list (string * json)) (name : string) : option json :=
  snd <$> find (fun kv => String.eqb kv.1 name) kwargs.

(** [field] is the name read so far inside an open [{]. *)
Fixpoint str_format (str : json -> string) (kwargs : list (string * json))
    (format_string : string) (field : option string) : rendering :=
  match format_string with
  | EmptyString =>
      match field with
      | None => Rendered ""
      | Some _ => FormatValueError
      end
  | String c rest =>
      match field with
      | None =>
          if Ascii.eqb c "{" then str_format str kwargs rest (Some "")
          else if Ascii.eqb c "}" then FormatValueError
          else then_text (String c "") (str_format str kwargs rest None)
      | Some name =>
          if Ascii.eqb c "}" then
            match kwarg kwargs name with
            | Some v => then_text (str v) (str_format str kwargs rest None)
            | None => FormatKeyError name
            end
          else if Ascii.eqb c "{" then FormatValueError
          else str_format str kwargs rest (Some (name +:+ String c ""))
      end
  end.

Definition render (str : json -> string) (s : lazy_str) : rendering :=
  match s with
  | gettext_lazy msgid => Rendered msgid
  | format_lazy format_string kwargs => str_format str kwargs format_string None
  end.

(** ** Views of a widget *)

Definition widget_attrs (w : widget) : gmap string string :=
  match w with
  | Button _ _ attrs _ _ => attrs
  | PageListingButton _ _ attrs _ => attrs
  | ButtonWithDropdownFromHook _ _ _ _ _ _ attrs _ => attrs
  end.

(** The target of a link widget; the dropdown has none. *)
Definition widget_url (w : widget) : option string :=
  match w with
  | Button _ url _ _ _ => Some url
  | PageListingButton _ url _ _ => Some url
  | ButtonWithDropdownFromHook _ _ _ _ _ _ _ _ => None
  end.

(** ** Views of the rich-text tables *)

(** The element a [from_database_format] selector applies to: the
    selector up to its attribute test, if it has one. *)
Fixpoint selector_element (selector : string) : string :=
  match selector with
  | EmptyString => ""
  | String c rest => if Ascii.eqb c "[" then "" else String c (selector_element rest)
  end.

(** The three kinds of node type of the editor. *)
Inductive node_kind := Block | InlineStyle | Entity.

#[export] Instance node_kind_eq_dec : EqDecision node_kind.
Proof. solve_decision. Defined.

(** The node type a Draftail feature declares in its option dict. *)
Definition plugin_node_type (p : plugin) : option (node_kind * string) :=
  let type_of (data : gmap string json) :=
    match data !! "type" with
    | Some (JStr type) => Some type
    | _ => None
    end in
  match p with
  | BlockFeature data => pair Block <$> type_of data
  | InlineStyleFeature data => pair InlineStyle <$> type_of data
  | EntityFeature data _ => pair Entity <$> type_of data
  | _ => None
  end.

(** The node types a [to_database_format] writes, by kind. *)
Definition written_node_types (to : to_database_format) : list (node_kind * string) :=
  (pair Block <$> (map_to_list (block_map to)).*1)
  ++ (pair InlineStyle <$> (map_to_list (style_map to)).*1)
  ++ (pair Entity <$> (map_to_list (entity_decorators to)).*1).

(** The elements an [editorhtml] rule whitelists. *)
Definition whitelisted_elements (rules : list editor_html_rule) : list string :=
  omap (fun r => match r with
                 | WhitelistRule element _ => Some element
                 | LinkTypeRule _ _ => None
                 end) rules.

#[export] Instance block_target_eq_dec : EqDecision block_target.
Proof. solve_decision. Defined.

#[export] Instance decorator_eq_dec : EqDecision decorator.
Proof. solve_decision. Defined.

(** * Properties *)

(** ** Audit-log formatters *)

Example revert_message_detailed :
  CoreLog.revert_message
    (JDict {[ "revision" := JDict {[ "id" := JInt 7; "created" := JStr "2020-07-01" ]} ]})
  = Ok (format_lazy
          "Reverted to previous revision with id {revision_id} from {created_at}"
          [("revision_id", JInt 7); ("created_at", JStr "2020-07-01")]).
Proof. vm_compute. reflexivity. Qed.

Example revert_message_generic :
  CoreLog.revert_message (JDict {[ "revision" := JDict {[ "id" := JInt 7 ]} ]})
  = Ok (gettext_lazy "Reverted to previous revision").
Proof. vm_compute. reflexivity. Qed.

Example schedule_publish_message_no_live_version :
  CoreLog.schedule_publish_message
    (JDict {[ "revision" := JDict {[ "has_live_version" := JBool false;
                                     "go_live_at" := JStr "2020-07-02" ]} ]})
  = Ok (format_lazy "Page scheduled for publishing at {go_live_at}"
          [("go_live_at", JStr "2020-07-02")]).
Proof. vm_compute. reflexivity. Qed.

Example workflow_start_message_without_next :
  WorkflowLog.workflow_start_message
    (JDict {[ "workflow" := JDict {[ "title" := JStr "Review"; "next" := JNull ]} ]})
  = Ok (gettext_lazy "Workflow started").
Proof. vm_compute. reflexivity. Qed.

Example workflow_approve_message_last_task :
  WorkflowLog.workflow_approve_message
    (JDict {[ "workflow" :=
                JDict {[ "title" := JStr "Review"; "next" := JNull;
                         "task" := JDict {[ "title" := JStr "Legal" ]} ]} ]})
  = Ok (format_lazy "Approved at '{task}'. '{workflow}' complete"
          [("task", JStr "Legal"); ("workflow", JStr "Review")]).
Proof. vm_compute. reflexivity. Qed.

Ltac reduce_formatter :=
  repeat (progress (cbn -[lookup In truthy];
                    unfold reads_if, getitem, mbind, result_bind)).

(** Case analysis on every subscript and test the goal is stuck on,
    reusing the cases already made. *)
Ltac case_subscripts :=
  repeat (first
    [ match goal with
      | H : ?m !! ?k = _ |- context [ @lookup _ _ _ _ ?k ?m ] =>
          rewrite H; reduce_formatter
      | H : truthy ?v = _ |- context [ truthy ?v ] =>
          rewrite H; reduce_formatter
      end
    | match goal with
      | |- context [ truthy ?v ] => destruct (truthy v) eqn:?; reduce_formatter
      end
    | match goal with
      | |- context [ match ?v with JDict _ => _ | _ => _ end ] =>
          is_var v; destruct v; reduce_formatter
      end
    | match goal with
      | |- context [ @lookup _ _ _ _ ?k ?m ] =>
          is_var m; destruct (m !! k) eqn:?; reduce_formatter
      end ]).

Ltac rewrite_lookups :=
  repeat match goal with
         | H : _ !! _ = _ |- _ => rewrite H; reduce_formatter
         | H : truthy _ = _ |- _ => rewrite H; reduce_formatter
         end.

Ltac reduce_prescription :=
  repeat (progress (cbn -[lookup In truthy];
                    unfold chains, chosen, reads_if, getitem, mbind, result_bind)).

Ltac close_values :=
  repeat (first
    [ apply Forall2_nil_2
    | apply Forall2_cons_2;
      [reduce_prescription; rewrite_lookups; reduce_prescription; reflexivity |] ]).

Ltac close_prescription :=
  repeat split; intros; try discriminate; try reflexivity;
  try (eexists _, _; split; [reduce_prescription; rewrite_lookups; reflexivity |];
       split; [cbn; tauto |];
       split; [close_values | reflexivity]).

Ltac formatter_prescribed f :=
  let Hd := fresh in
  let Hmd := fresh in
  intros Hd Hmd; cbn in Hd, Hmd; injection Hd as <-; injection Hmd as <-;
  unfold f, prescribes, try_except, sub; reduce_prescription;
  case_subscripts; reduce_prescription; close_prescription.

Lemma revert_message_prescribed m d md :
  doc_of "wagtail.revert" = Some d ->
  message_doc_of "wagtail.revert" = Some md ->
  prescribes false d md CoreLog.revert_message (JDict m).
Proof. formatter_prescribed CoreLog.revert_message. Qed.

Lemma schedule_revert_message_prescribed m d md :
  doc_of "wagtail.schedule.revert" = Some d ->
  message_doc_of "wagtail.schedule.revert" = Some md ->
  prescribes false d md CoreLog.schedule_revert_message (JDict m).
Proof. formatter_prescribed CoreLog.schedule_revert_message. Qed.

Lemma copy_message_prescribed m d md :
  doc_of "wagtail.copy" = Some d ->
  message_doc_of "wagtail.copy" = Some md ->
  prescribes false d md CoreLog.copy_message (JDict m).
Proof. formatter_prescribed CoreLog.copy_message. Qed.

Lemma move_message_prescribed m d md :
  doc_of "wagtail.move" = Some d ->
  message_doc_of "wagtail.move" = Some md ->
  prescribes false d md CoreLog.move_message (JDict m).
Proof. formatter_prescribed CoreLog.move_message. Qed.

Lemma schedule_publish_message_prescribed m d md :
  doc_of "wagtail.schedule.publish" = Some d ->
  message_doc_of "wagtail.schedule.publish" = Some md ->
  prescribes false d md CoreLog.schedule_publish_message (JDict m).
Proof. formatter_prescribed CoreLog.schedule_publish_message. Qed.

Lemma unschedule_publish_message_prescribed m d md :
  doc_of "wagtail.schedule.cancel" = Some d ->
  message_doc_of "wagtail.schedule.cancel" = Some md ->
  prescribes false d md CoreLog.unschedule_publish_message (JDict m).
Proof. formatter_prescribed CoreLog.unschedule_publish_message. Qed.

Lemma add_view_restriction_prescribed m d md :
  doc_of "wagtail.view_restriction.create" = Some d ->
  message_doc_of "wagtail.view_restriction.create" = Some md ->
  prescribes false d md CoreLog.add_view_restriction (JDict m).
Proof. formatter_prescribed CoreLog.add_view_restriction. Qed.

Lemma edit_view_restriction_prescribed m d md :
  doc_of "wagtail.view_restriction.edit" = Some d ->
  message_doc_of "wagtail.view_restriction.edit" = Some md ->
  prescribes false d md CoreLog.edit_view_restriction (JDict m).
Proof. formatter_prescribed CoreLog.edit_view_restriction. Qed.

Lemma delete_view_restriction_prescribed m d md :
  doc_of "wagtail.view_restriction.delete" = Some d ->
  message_doc_of "wagtail.view_restriction.delete" = Some md ->
  prescribes false d md CoreLog.delete_view_restriction (JDict m).
Proof. formatter_prescribed CoreLog.delete_view_restriction. Qed.

Lemma workflow_start_message_prescribed m d md :
  doc_of "wagtail.workflow.start" = Some d ->
  message_doc_of "wagtail.workflow.start" = Some md ->
  prescribes true d md WorkflowLog.workflow_start_message (JDict m).
Proof. formatter_prescribed WorkflowLog.workflow_start_message. Qed.

Lemma workflow_approve_message_prescribed m d md :
  doc_of "wagtail.workflow.approve" = Some d ->
  message_doc_of "wagtail.workflow.approve" = Some md ->
  prescribes true d md WorkflowLog.workflow_approve_message (JDict m).
Proof. formatter_prescribed WorkflowLog.workflow_approve_message. Qed.

Lemma workflow_reject_message_prescribed m d md :
  doc_of "wagtail.workflow.reject" = Some d ->
  message_doc_of "wagtail.workflow.reject" = Some md ->
  prescribes true d md WorkflowLog.workflow_reject_message (JDict m).
Proof. formatter_prescribed WorkflowLog.workflow_reject_message. Qed.

Ltac registered_formatter lem :=
  eexists _, _; split; [reflexivity | split; [reflexivity |]];
  intros; apply lem; reflexivity.

(** C1 (as amended). Every formatter registered by the two
    [register_log_actions] hooks has a description (the chains it
    reads, its generic message, and its detailed message: format
    string, and name and chain of each keyword argument, per branch of
    its test if it has one) such that, on every event-data mapping:
    the chains read are the test and the arguments of the message the
    test selects; when every chain finds its keys the formatter
    returns exactly that message, its format string with the keyword
    arguments of the description in order, each holding the value at
    its chain; when the first chain to fail misses a key of a mapping
    it returns its generic message; when the first chain to fail
    subscripts a value that is not a mapping, the three workflow
    formatters return their generic message while the nine core
    formatters let the [TypeError] propagate; and no formatter lets a
    [KeyError] out. *)
Theorem formatter_fallback (a : log_action) (f : json -> result lazy_str) :
  In a registered_log_actions ->
  message a = Formatter f ->
  exists d md,
    doc_of (action a) = Some d /\ message_doc_of (action a) = Some md /\
    forall m : gmap string json,
      let data := JDict m in
      reads d data = chains md data
      /\ (first_failure data (reads d data) = None ->
            exists message values,
              chosen md data = Some message
              /\ In (template message) (templates d)
              /\ Forall2 (fun arg v => walk data arg.2 = Ok v)
                         (arguments message) values
              /\ f data = Ok (format_lazy (template message)
                                (zip (arguments message).*1 values)))
      /\ (forall key, first_failure data (reads d data) = Some (KeyError key) ->
            f data = Ok (gettext_lazy (generic d)))
      /\ (first_failure data (reads d data) = Some TypeError ->
            f data = if is_workflow_action (action a)
                     then Ok (gettext_lazy (generic d))
                     else Raise TypeError)
      /\ (forall key, f data <> Raise (KeyError key)).
Proof.
  intros Hin Hf.
  unfold registered_log_actions, register_workflow_log_actions,
    register_core_log_actions, run, register_action in Hin.
  simpl in Hin.
  repeat (destruct Hin as [<- | Hin];
          [simpl in Hf; first [discriminate Hf | injection Hf as <-] |]);
    [ registered_formatter revert_message_prescribed
    | registered_formatter schedule_revert_message_prescribed
    | registered_formatter copy_message_prescribed
    | registered_formatter move_message_prescribed
    | registered_formatter schedule_publish_message_prescribed
    | registered_formatter unschedule_publish_message_prescribed
    | registered_formatter add_view_restriction_prescribed
    | registered_formatter edit_view_restriction_prescribed
    | registered_formatter delete_view_restriction_prescribed
    | registered_formatter workflow_start_message_prescribed
    | registered_formatter workflow_approve_message_prescribed
    | registered_formatter workflow_reject_message_prescribed
    | destruct Hin ].
Qed.

Lemma formatter_fallback_witness :
  let a := LogAction "wagtail.move" "Move" (Formatter CoreLog.move_message) in
  let data := JDict {[ "source" := JDict {[ "title" := JStr "Home" ]};
                       "destination" := JDict {[ "title" := JStr "News" ]} ]} in
  In a registered_log_actions
  /\ exists message values,
       Forall2 (fun arg v => walk data arg.2 = Ok v) (arguments message) values
       /\ CoreLog.move_message data
          = Ok (format_lazy (template message) (zip (arguments message).*1 values)).
Proof.
  intros a data.
  assert (Hin : In a registered_log_actions).
  { unfold registered_log_actions, register_workflow_log_actions,
      register_core_log_actions, run, register_action. simpl. tauto. }
  split; [exact Hin |].
  destruct (formatter_fallback a CoreLog.move_message Hin eq_refl)
    as (d & md & Hd & Hmd & H).
  cbn in Hd. injection Hd as <-.
  destruct (H {[ "source" := JDict {[ "title" := JStr "Home" ]};
                 "destination" := JDict {[ "title" := JStr "News" ]} ]})
    as (_ & Hdetailed & _).
  destruct (Hdetailed eq_refl) as (message & values & _ & _ & Hvalues & Hresult).
  exists message, values. split; [exact Hvalues | exact Hresult].
Defined.

(** C1 (as stated) fails: on the event-data mapping
    [{'revision': None}] the key [revision] is there, the [id] the
    formatter goes on to read is not, and [revert_message], which is
    registered for [wagtail.revert], neither returns its generic
    message nor any other: the [TypeError] propagates. *)
Lemma formatter_type_error_escapes :
  In (LogAction "wagtail.revert" "Revert" (Formatter CoreLog.revert_message))
     registered_log_actions
  /\ CoreLog.revert_message (JDict {[ "revision" := JNull ]}) = Raise TypeError
  /\ ~ (forall m : gmap string json,
          exists msg, CoreLog.revert_message (JDict m) = Ok msg).
Proof.
  split; [| split].
  - unfold registered_log_actions, register_workflow_log_actions,
      register_core_log_actions, run, register_action. simpl. tauto.
  - vm_compute. reflexivity.
  - intros H. destruct (H {[ "revision" := JNull ]}) as [msg Hmsg].
    vm_compute in Hmsg. discriminate Hmsg.
Qed.

(** ** Action codes *)

(** C5. No action code is registered twice across the two
    [register_log_actions] hooks: the 18 codes of
    [register_core_log_actions] and the 3 of
    [register_workflow_log_actions], appended to the registry they
    receive, are 21 distinct strings. *)
Theorem action_codes_unique :
  NoDup (map action registered_log_actions)
  /\ length (register_core_log_actions []) = 18%nat
  /\ length (register_workflow_log_actions []) = 3%nat
  /\ (forall actions,
        register_core_log_actions actions = actions ++ register_core_log_actions [])
  /\ (forall actions,
        register_workflow_log_actions actions
        = actions ++ register_workflow_log_actions []).
Proof.
  split; [| split; [| split; [| split]]].
  - apply (bool_decide_unpack _). vm_compute. exact I.
  - reflexivity.
  - reflexivity.
  - intros actions. unfold register_core_log_actions, run, register_action.
    simpl. rewrite <- !app_assoc. reflexivity.
  - intros actions. unfold register_workflow_log_actions, run, register_action.
    simpl. rewrite <- !app_assoc. reflexivity.
Qed.

(** ** Icons *)

Lemma foldl_append_each {A B} (g : A -> B) (l : list A) (acc : list B) :
  foldl (fun acc x => acc ++ [g x]) acc l = acc ++ map g l.
Proof.
  revert acc. induction l as [| x l IH]; intros acc; simpl.
  - by rewrite app_nil_r.
  - rewrite IH, <- app_assoc. reflexivity.
Qed.

(** C6. [register_icons] appends to the list it receives exactly one
    entry per icon file, each being ['wagtailadmin/icons/'] followed by
    the file name; the 78 file names are distinct, and so are the
    entries produced from an empty list. *)
Theorem register_icons_entries :
  (forall icons : list string,
     register_icons icons
     = icons ++ map (String.append "wagtailadmin/icons/") icon_files)
  /\ NoDup icon_files
  /\ NoDup (register_icons [])
  /\ length (register_icons []) = 78%nat
  /\ (forall entry, In entry (register_icons []) <->
        exists icon, In icon icon_files /\ entry = "wagtailadmin/icons/" +:+ icon).
Proof.
  assert (Happ : forall icons : list string,
             register_icons icons
             = icons ++ map (String.append "wagtailadmin/icons/") icon_files).
  { intros icons. unfold register_icons. apply foldl_append_each. }
  split; [exact Happ |].
  split; [apply (bool_decide_unpack _); vm_compute; exact I |].
  split; [apply (bool_decide_unpack _); vm_compute; exact I |].
  split; [reflexivity |].
  intros entry. rewrite Happ, app_nil_l, in_map_iff.
  split; intros (icon & H1 & H2); exists icon; auto.
Qed.

(** ** append_querystring *)

Lemma string_append_empty_r (s : string) : s +:+ "" = s.
Proof.
  induction s as [| c s IH]; [reflexivity |].
  change (String c (s +:+ "") = String c s). by rewrite IH.
Qed.

(** C8. [append_querystring] returns the path unchanged for a
    querystring that is [None] or empty, and the path, ['?'] and the
    querystring concatenated otherwise. *)
Theorem append_querystring_spec (path : string) :
  append_querystring path None = path
  /\ append_querystring path (Some "") = path
  /\ forall q, q <> "" -> append_querystring path (Some q) = path +:+ "?" +:+ q.
Proof.
  unfold append_querystring, str_truthy.
  split; [apply string_append_empty_r | split; [apply string_append_empty_r |]].
  intros q Hq. destruct (String.eqb_spec q ""); [contradiction | reflexivity].
Qed.

Lemma append_querystring_spec_witness :
  "next=/admin/pages/2/" <> ""
  /\ append_querystring "/admin/pages/3/copy/" (Some "next=/admin/pages/2/")
     = "/admin/pages/3/copy/?next=/admin/pages/2/".
Proof.
  split; [discriminate |].
  exact (proj2 (proj2 (append_querystring_spec "/admin/pages/3/copy/"))
           "next=/admin/pages/2/" ltac:(discriminate)).
Defined.

(** ** Page listing buttons *)

Example page_listing_buttons_without_permissions :
  map widget_label
      (page_listing_buttons (fun name _ => name)
         (Page 3 "Home" false false false None)
         (PagePerms false false false false false false false) false None)
  = ["More"].
Proof. reflexivity. Qed.

Example page_listing_more_buttons_copy_url :
  page_listing_more_buttons (fun name _ => "/" +:+ name +:+ "/")
    (Page 3 "Home" false false true (Some "/"))
    (PagePerms false false false true false false false) false (Some "next=/admin/")
  = [Button "Copy" "/wagtailadmin_pages:copy/?next=/admin/"
       {[ "title" := "Copy page 'Home'" ]} None 20].
Proof. reflexivity. Qed.

(** The priorities of the widgets, guard by guard. *)
Lemma page_listing_buttons_priorities (reverse : string -> list Z -> string)
    (page : page) (page_perms : page_perms) (is_parent : bool)
    (next_url : option string) :
  map widget_priority (page_listing_buttons reverse page page_perms is_parent next_url)
  = (if can_edit page_perms then [10] else [])
    ++ (if has_unpublished_changes page && is_previewable page then [20] else [])
    ++ (if live page && str_truthy (page_url page) then [30] else [])
    ++ (if can_add_subpage page_perms then [40] else [])
    ++ [50].
Proof.
  unfold page_listing_buttons, yield_if. rewrite !map_app.
  destruct (can_edit page_perms),
    (has_unpublished_changes page && is_previewable page),
    (live page && str_truthy (page_url page)),
    (can_add_subpage page_perms), is_parent; reflexivity.
Qed.

Lemma page_listing_more_buttons_priorities (reverse : string -> list Z -> string)
    (page : page) (page_perms : page_perms) (is_parent : bool)
    (next_url : option string) :
  map widget_priority
      (page_listing_more_buttons reverse page page_perms is_parent next_url)
  = (if can_move page_perms then [10] else [])
    ++ (if can_copy page_perms then [20] else [])
    ++ (if can_delete page_perms then [30] else [])
    ++ (if can_unpublish page_perms then [40] else [])
    ++ (if can_view_revisions page_perms then [50; 50] else []).
Proof.
  unfold page_listing_more_buttons, yield_if. rewrite !map_app.
  destruct (can_move page_perms), (can_copy page_perms), (can_delete page_perms),
    (can_unpublish page_perms), (can_view_revisions page_perms); reflexivity.
Qed.

(** C9. Whatever the page and the results of the capability checks,
    [page_listing_buttons] yields at least one widget, and the last one
    is the 'More' dropdown with priority 50. *)
Theorem page_listing_buttons_last (reverse : string -> list Z -> string)
    (page : page) (page_perms : page_perms) (is_parent : bool)
    (next_url : option string) :
  page_listing_buttons reverse page page_perms is_parent next_url <> []
  /\ exists attrs,
       last (page_listing_buttons reverse page page_perms is_parent next_url)
       = Some (ButtonWithDropdownFromHook "More" "register_page_listing_more_buttons"
                 page page_perms is_parent next_url attrs 50).
Proof.
  unfold page_listing_buttons. split.
  - intros H. apply (f_equal last) in H. rewrite !last_app in H. discriminate H.
  - eexists. rewrite !last_app. reflexivity.
Qed.

(** C10. The widgets of [page_listing_buttons] and those of
    [page_listing_more_buttons] come in non-decreasing order of
    priority: no widget has a smaller priority than one yielded before
    it, and the priorities are among 10, 20, 30, 40 and 50. *)
Theorem listing_buttons_priority_order (reverse : string -> list Z -> string)
    (page : page) (page_perms : page_perms) (is_parent : bool)
    (next_url : option string) :
  let buttons := page_listing_buttons reverse page page_perms is_parent next_url in
  let more := page_listing_more_buttons reverse page page_perms is_parent next_url in
  StronglySorted Z.le (map widget_priority buttons)
  /\ StronglySorted Z.le (map widget_priority more)
  /\ Forall (fun p => In p [10; 20; 30; 40; 50]) (map widget_priority (buttons ++ more)).
Proof.
  intros buttons more. subst buttons more.
  rewrite map_app, page_listing_buttons_priorities,
    page_listing_more_buttons_priorities.
  destruct (can_edit page_perms),
    (has_unpublished_changes page && is_previewable page),
    (live page && str_truthy (page_url page)),
    (can_add_subpage page_perms),
    (can_move page_perms), (can_copy page_perms), (can_delete page_perms),
    (can_unpublish page_perms), (can_view_revisions page_perms);
    cbn [app]; (split; [| split]);
    repeat first [ apply SSorted_nil | apply SSorted_cons
                 | apply List.Forall_nil | apply List.Forall_cons ];
    first [ lia | cbn; tauto ].
Qed.

(** The labels of the widgets, guard by guard. *)
Lemma page_listing_buttons_labels (reverse : string -> list Z -> string)
    (page : page) (page_perms : page_perms) (is_parent : bool)
    (next_url : option string) :
  map widget_label (page_listing_buttons reverse page page_perms is_parent next_url)
  = (if can_edit page_perms then ["Edit"] else [])
    ++ (if has_unpublished_changes page && is_previewable page
        then ["View draft"] else [])
    ++ (if live page && str_truthy (page_url page) then ["View live"] else [])
    ++ (if can_add_subpage page_perms then ["Add child page"] else [])
    ++ ["More"].
Proof.
  unfold page_listing_buttons, yield_if. rewrite !map_app.
  destruct (can_edit page_perms),
    (has_unpublished_changes page && is_previewable page),
    (live page && str_truthy (page_url page)),
    (can_add_subpage page_perms), is_parent; reflexivity.
Qed.

Lemma page_listing_more_buttons_labels (reverse : string -> list Z -> string)
    (page : page) (page_perms : page_perms) (is_parent : bool)
    (next_url : option string) :
  map widget_label
      (page_listing_more_buttons reverse page page_perms is_parent next_url)
  = (if can_move page_perms then ["Move"] else [])
    ++ (if can_copy page_perms then ["Copy"] else [])
    ++ (if can_delete page_perms then ["Delete"] else [])
    ++ (if can_unpublish page_perms then ["Unpublish"] else [])
    ++ (if can_view_revisions page_perms then ["Revisions"; "History"] else []).
Proof.
  unfold page_listing_more_buttons, yield_if. rewrite !map_app.
  destruct (can_move page_perms), (can_copy page_perms), (can_delete page_perms),
    (can_unpublish page_perms), (can_view_revisions page_perms); reflexivity.
Qed.

Lemma page_listing_buttons_counts (reverse : string -> list Z -> string)
    (page : page) (page_perms : page_perms) (is_parent : bool)
    (next_url : option string) :
  let buttons := page_listing_buttons reverse page page_perms is_parent next_url in
  count_label "Edit" buttons = once_if (can_edit page_perms)
  /\ count_label "View draft" buttons
     = once_if (has_unpublished_changes page && is_previewable page)
  /\ count_label "View live" buttons
     = once_if (live page && str_truthy (page_url page))
  /\ count_label "Add child page" buttons = once_if (can_add_subpage page_perms)
  /\ count_label "More" buttons = 1%nat
  /\ Forall (fun w => In (widget_label w)
                        ["Edit"; "View draft"; "View live"; "Add child page"; "More"])
       buttons.
Proof.
  intros buttons. subst buttons. unfold count_label.
  rewrite <- (Forall_map widget_label
                (fun l => In l ["Edit"; "View draft"; "View live"; "Add child page"; "More"])).
  rewrite page_listing_buttons_labels.
  destruct (can_edit page_perms),
    (has_unpublished_changes page && is_previewable page),
    (live page && str_truthy (page_url page)),
    (can_add_subpage page_perms);
    repeat (split; [reflexivity |]);
    repeat first [ apply List.Forall_nil | apply List.Forall_cons ]; cbn; tauto.
Qed.

Lemma page_listing_more_buttons_counts (reverse : string -> list Z -> string)
    (page : page) (page_perms : page_perms) (is_parent : bool)
    (next_url : option string) :
  let more := page_listing_more_buttons reverse page page_perms is_parent next_url in
  count_label "Move" more = once_if (can_move page_perms)
  /\ count_label "Copy" more = once_if (can_copy page_perms)
  /\ count_label "Delete" more = once_if (can_delete page_perms)
  /\ count_label "Unpublish" more = once_if (can_unpublish page_perms)
  /\ count_label "Revisions" more = once_if (can_view_revisions page_perms)
  /\ count_label "History" more = once_if (can_view_revisions page_perms)
  /\ Forall (fun w => In (widget_label w)
                        ["Move"; "Copy"; "Delete"; "Unpublish"; "Revisions"; "History"])
       more.
Proof.
  intros more. subst more. unfold count_label.
  rewrite <- (Forall_map widget_label
                (fun l => In l ["Move"; "Copy"; "Delete"; "Unpublish"; "Revisions"; "History"])).
  rewrite page_listing_more_buttons_labels.
  destruct (can_move page_perms), (can_copy page_perms), (can_delete page_perms),
    (can_unpublish page_perms), (can_view_revisions page_perms);
    repeat (split; [reflexivity |]);
    repeat first [ apply List.Forall_nil | apply List.Forall_cons ]; cbn; tauto.
Qed.

(** ** Visibility of buttons and menu items *)

Section Visibility.

Variable reverse : string -> list Z -> string.
Variable user : Type.
Variable user_has_any_page_permission : user -> bool.
Variable collection_user_has_any_permission : user -> list string -> bool.
Variable workflow_user_has_any_permission : user -> list string -> bool.
Variable can_remove_locks : user -> bool.
Variable explorable_pages_exists : user -> bool.
Variable can_edit_pages : user -> bool.
Variable can_publish_pages : user -> bool.
Variable has_usable_password : user -> bool.
Variable email_management_enabled : bool.
Variable password_management_enabled : bool.
Variable get_available_admin_languages : list (string * string).
Variable get_available_admin_time_zones : list string.
Variable SubmenuMenuItem_is_shown : menu_item -> user -> bool.

Local Abbreviation shown :=
  (is_shown user user_has_any_page_permission collection_user_has_any_permission
     workflow_user_has_any_permission can_remove_locks explorable_pages_exists
     SubmenuMenuItem_is_shown).

Local Abbreviation rendered :=
  (menu_items_for_request user user_has_any_page_permission
     collection_user_has_any_permission workflow_user_has_any_permission
     can_remove_locks explorable_pages_exists SubmenuMenuItem_is_shown).

(** C2. For every result of the capability checks, each widget of the
    two listing generators is yielded exactly once when its guard holds
    and not at all otherwise ('More' has no guard), and nothing else is
    yielded; each account menu hook returns its entry exactly when its
    condition holds; the [is_shown] of each menu item class is the
    capability check the class names; and a rendered menu holds an
    item of a hook exactly when the item's [is_shown] returns true. All
    of these are total functions: a false guard omits the item. *)
Theorem item_present_iff_visible (page : page) (page_perms : page_perms)
    (is_parent : bool) (next_url : option string) (request : request user) :
  let buttons := page_listing_buttons reverse page page_perms is_parent next_url in
  let more := page_listing_more_buttons reverse page page_perms is_parent next_url in
  let u := request_user user request in
  (count_label "Edit" buttons = once_if (can_edit page_perms)
   /\ count_label "View draft" buttons
      = once_if (has_unpublished_changes page && is_previewable page)
   /\ count_label "View live" buttons
      = once_if (live page && str_truthy (page_url page))
   /\ count_label "Add child page" buttons = once_if (can_add_subpage page_perms)
   /\ count_label "More" buttons = 1%nat
   /\ Forall (fun w => In (widget_label w)
                         ["Edit"; "View draft"; "View live"; "Add child page"; "More"])
        buttons)
  /\ (count_label "Move" more = once_if (can_move page_perms)
      /\ count_label "Copy" more = once_if (can_copy page_perms)
      /\ count_label "Delete" more = once_if (can_delete page_perms)
      /\ count_label "Unpublish" more = once_if (can_unpublish page_perms)
      /\ count_label "Revisions" more = once_if (can_view_revisions page_perms)
      /\ count_label "History" more = once_if (can_view_revisions page_perms)
      /\ Forall (fun w => In (widget_label w)
                            ["Move"; "Copy"; "Delete"; "Unpublish"; "Revisions"; "History"])
           more)
  /\ (is_Some (register_account_set_profile_picture reverse user request)
      /\ (is_Some (register_account_change_email reverse user
                     email_management_enabled request)
          <-> email_management_enabled = true)
      /\ (is_Some (register_account_change_password reverse user has_usable_password
                     password_management_enabled request)
          <-> password_management_enabled && has_usable_password u = true)
      /\ (is_Some (register_account_notification_preferences reverse user
                     can_edit_pages can_publish_pages request)
          <-> can_edit_pages u || can_publish_pages u = true)
      /\ (is_Some (register_account_preferred_language_preferences reverse user
                     get_available_admin_languages request)
          <-> (1 < length get_available_admin_languages)%nat)
      /\ (is_Some (register_account_current_time_zone reverse user
                     get_available_admin_time_zones request)
          <-> (1 < length get_available_admin_time_zones)%nat)
      /\ is_Some (register_account_change_name reverse user request))
  /\ (shown (register_explorer_menu_item reverse) request
      = user_has_any_page_permission u
      /\ shown (register_pages_search_area reverse) request
         = user_has_any_page_permission u
      /\ shown (register_collections_menu_item reverse) request
         = collection_user_has_any_permission u ["add"; "change"; "delete"]
      /\ shown (register_workflows_menu_item reverse) request
         = workflow_user_has_any_permission u ["add"; "change"; "delete"]
      /\ shown (register_locked_pages_menu_item reverse) request = can_remove_locks u
      /\ shown (register_workflow_report_menu_item reverse) request = true
      /\ shown (register_workflow_tasks_report_menu_item reverse) request = true
      /\ shown (register_site_history_report_menu_item reverse) request
         = explorable_pages_exists u
      /\ shown register_settings_menu request
         = SubmenuMenuItem_is_shown register_settings_menu u
      /\ shown register_reports_menu request
         = SubmenuMenuItem_is_shown register_reports_menu u)
  /\ (forall hook_name item,
        In item (rendered (menu_hook reverse hook_name) request)
        <-> In item (menu_hook reverse hook_name) /\ shown item request = true).
Proof.
  intros buttons more u.
  split; [apply page_listing_buttons_counts |].
  split; [apply page_listing_more_buttons_counts |].
  split.
  { unfold register_account_set_profile_picture, register_account_change_email,
      register_account_change_password, register_account_notification_preferences,
      register_account_preferred_language_preferences,
      register_account_current_time_zone, register_account_change_name.
    fold u.
    repeat split; eauto;
      try (intros H;
           repeat case_bool_decide; repeat case_match;
           first [ done | by inversion H | eauto ]). }
  split; [repeat split |].
  intros hook_name item. unfold menu_items_for_request.
  rewrite <- !list_elem_of_In, list_elem_of_filter. tauto.
Qed.

End Visibility.

(** ** Rich-text feature tables *)

Lemma registered_In {A} (calls : list (string * string * A)) name feature v :
  registered calls name feature = Some v -> In (name, feature, v) calls.
Proof.
  unfold registered. intros H.
  destruct (last (filter (fun c => c.1 = (name, feature)) calls)) as [[k v'] |] eqn:E;
    [| discriminate].
  simpl in H. injection H as ->.
  apply last_Some_elem_of, list_elem_of_filter in E as [Hk Hin].
  simpl in Hk. subst k. by apply list_elem_of_In.
Qed.

Lemma registered_None {A} (calls : list (string * string * A)) name feature :
  registered calls name feature = None -> forall v, ~ In (name, feature, v) calls.
Proof.
  unfold registered. intros H v Hin.
  destruct (last (filter (fun c => c.1 = (name, feature)) calls)) eqn:E;
    [discriminate |].
  apply last_None in E.
  apply (filter_nil_not_elem_of _ _ (name, feature, v)) in E; [| reflexivity].
  apply E, list_elem_of_In, Hin.
Qed.

Lemma headings_enumerated (start : Z) :
  enumerate headings_elements start
  = [(0 + start, "h1"); (1 + start, "h2"); (2 + start, "h3");
     (3 + start, "h4"); (4 + start, "h5"); (5 + start, "h6")].
Proof. reflexivity. Qed.







(** Decoding is not injective: [strong] is read as BOLD, which is
    written back as [b]. *)
Example strong_is_written_back_as_b :
  exists from to,
    In ("contentstate", "bold", ContentState from to)
       (converter_rules (register_core_features 20 no_features))
    /\ from !! "strong" = Some (InlineStyleElementHandler "BOLD")
    /\ style_map to !! "BOLD" = Some "b".
Proof.
  eexists _, _. split; [apply registered_In; vm_compute; reflexivity |].
  split; vm_compute; reflexivity.
Qed.

Ltac find_call :=
  lazymatch goal with
  | |- exists _, _ => eexists; find_call
  | |- In _ _ => apply registered_In; vm_compute; reflexivity
  end.

Ltac no_call :=
  lazymatch goal with
  | |- forall _, ~ In _ _ => apply registered_None; vm_compute; reflexivity
  end.

(** C7 (as amended). [register_core_features] registers a plugin and a
    converter rule for both editors (a 'hallo' plugin with an
    'editorhtml' rule, and a 'draftail' plugin with a 'contentstate'
    rule) for bold, italic, h1 to h6, ol, ul, link and hr; for
    superscript, subscript, strikethrough and code it registers the
    'draftail' plugin and the 'contentstate' rule only, and nothing
    for 'hallo' or 'editorhtml'. It only appends to the registry it
    receives. *)
Theorem core_features_registered (default_order : Z) :
  let features := register_core_features default_order no_features in
  Forall (fun feature =>
            (exists p, In ("hallo", feature, p) (editor_plugins features))
            /\ (exists rules,
                  In ("editorhtml", feature, EditorHtml rules)
                     (converter_rules features))
            /\ (exists p, In ("draftail", feature, p) (editor_plugins features))
            /\ (exists from to,
                  In ("contentstate", feature, ContentState from to)
                     (converter_rules features)))
         ["bold"; "italic"; "h1"; "h2"; "h3"; "h4"; "h5"; "h6";
          "ol"; "ul"; "link"; "hr"]
  /\ Forall (fun feature =>
               (exists p, In ("draftail", feature, p) (editor_plugins features))
               /\ (exists from to,
                     In ("contentstate", feature, ContentState from to)
                        (converter_rules features))
               /\ (forall p, ~ In ("hallo", feature, p) (editor_plugins features))
               /\ (forall r, ~ In ("editorhtml", feature, r)
                                  (converter_rules features)))
            ["superscript"; "subscript"; "strikethrough"; "code"]
  /\ (forall received,
        editor_plugins (register_core_features default_order received)
        = editor_plugins received ++ editor_plugins features
        /\ converter_rules (register_core_features default_order received)
           = converter_rules received ++ converter_rules features).
Proof.
  intros features. subst features.
  split; [| split].
  - repeat (apply List.Forall_cons;
            [split; [find_call | split; [find_call | split; find_call]] |]).
    apply List.Forall_nil.
  - repeat (apply List.Forall_cons;
            [split; [find_call | split; [find_call | split; no_call]] |]).
    apply List.Forall_nil.
  - intros received.
    unfold register_core_features, run, no_features.
    rewrite headings_enumerated.
    cbn [foldl register_editor_plugin register_converter_rule
         editor_plugins converter_rules app].
    rewrite <- !app_assoc. split; reflexivity.
Qed.

(** C7 (as stated) fails: no 'hallo' plugin and no 'editorhtml'
    converter rule is registered for superscript. *)
Lemma superscript_not_registered_for_hallo :
  let features := register_core_features 20 no_features in
  ~ (exists p, In ("hallo", "superscript", p) (editor_plugins features))
  /\ ~ (exists r, In ("editorhtml", "superscript", r) (converter_rules features)).
Proof.
  split; intros [x Hx]; revert x Hx; apply registered_None; vm_compute; reflexivity.
Qed.

(** ** The link whitelist *)

Lemma strip_prefix_Some (w s rest : string) :
  strip_prefix w s = Some rest <-> s = w +:+ rest.
Proof.
  revert s. induction w as [| c w IH]; intros s.
  - change (Some s = Some rest <-> s = rest). split; congruence.
  - change (String c w +:+ rest) with (String c (w +:+ rest)).
    destruct s as [| c' s]; simpl; [split; discriminate |].
    destruct (Ascii.eqb_spec c c') as [-> | Hne].
    + rewrite IH. split; congruence.
    + split; [discriminate | congruence].
Qed.

Lemma matches_literal (w : string) (tail : RegExp.regex) (at_start : bool)
    (s : string) (k : bool -> string -> bool) :
  RegExp.matches (literal w tail) at_start s k
  = match strip_prefix w s with
    | Some rest =>
        RegExp.matches tail (at_start && bool_decide (w = "")) rest k
    | None => false
    end.
Proof.
  revert at_start s. induction w as [| c w IH]; intros at_start s.
  - simpl. by rewrite andb_true_r.
  - destruct s as [| c' s]; simpl; [reflexivity |].
    destruct (Ascii.eqb c c'); [| reflexivity].
    rewrite IH, andb_false_r. reflexivity.
Qed.

Lemma search_anchored_later (r : RegExp.regex) (s : string) :
  RegExp.search (RegExp.Concat RegExp.StartAnchor r) false s = false.
Proof. induction s as [| c s IH]; simpl; [reflexivity | exact IH]. Qed.

Lemma search_anchored (r : RegExp.regex) (s : string) :
  RegExp.search (RegExp.Concat RegExp.StartAnchor r) true s
  = RegExp.matches r true s (fun _ _ => true).
Proof.
  destruct s as [| c s]; simpl; [by rewrite orb_false_r |].
  change (RegExp.matches r true (String c s) (fun _ _ => true)
          || RegExp.search (RegExp.Concat RegExp.StartAnchor r) false s
          = RegExp.matches r true (String c s) (fun _ _ => true)).
  by rewrite search_anchored_later, orb_false_r.
Qed.

Lemma link_pattern_compiled :
  RegExp.compile "^(http:|https:|undefined$)"
  = Some (RegExp.Concat RegExp.StartAnchor
            (RegExp.Concat
               (RegExp.Or (literal "http:" RegExp.Empty)
                  (RegExp.Or (literal "https:" RegExp.Empty)
                     (literal "undefined"
                        (RegExp.Concat RegExp.EndAnchor RegExp.Empty))))
               RegExp.Empty)).
Proof. vm_compute. reflexivity. Qed.

Lemma link_pattern_test (href : string) :
  exists accepted,
    RegExp.test "^(http:|https:|undefined$)" href = Some accepted
    /\ (accepted = true <->
        (exists rest, href = "http:" +:+ rest)
        \/ (exists rest, href = "https:" +:+ rest)
        \/ href = "undefined").
Proof.
  unfold RegExp.test. rewrite link_pattern_compiled.
  eexists. split; [reflexivity |].
  rewrite search_anchored.
  cbn [RegExp.matches]. rewrite !matches_literal.
  cbn [RegExp.matches].
  rewrite !orb_true_iff.
  assert (Hstrip : forall w, (exists rest, strip_prefix w href = Some rest)
                             <-> exists rest, href = w +:+ rest).
  { intros w. split; intros [rest H]; exists rest; by apply strip_prefix_Some. }
  assert (Hall : strip_prefix "undefined" href = Some "" <-> href = "undefined")
    by apply strip_prefix_Some.
  rewrite <- !Hstrip, <- Hall.
  destruct (strip_prefix "http:" href) as [r1 |];
    destruct (strip_prefix "https:" href) as [r2 |];
    destruct (strip_prefix "undefined" href) as [[| c r3] |];
    split; intros H; eauto;
    repeat (destruct H as [H | H]); try discriminate;
    try (match type of H with ex _ => destruct H as [rest H]; discriminate H end).
Qed.

Lemma registered_once {A} (calls : list (string * string * A)) name feature v :
  filter (fun c => c.1 = (name, feature)) calls = [(name, feature, v)] ->
  In (name, feature, v) calls
  /\ forall v', In (name, feature, v') calls -> v' = v.
Proof.
  intros Hf. split.
  - apply list_elem_of_In.
    assert (H : (name, feature, v) ∈ filter (fun c => c.1 = (name, feature)) calls)
      by (rewrite Hf; apply list_elem_of_here).
    by apply list_elem_of_filter in H as [_ H].
  - intros v' Hin.
    assert (H : (name, feature, v') ∈ filter (fun c => c.1 = (name, feature)) calls)
      by (apply list_elem_of_filter; split; [reflexivity | by apply list_elem_of_In]).
    rewrite Hf in H. apply list_elem_of_singleton in H. congruence.
Qed.

(** C4. The link feature constrains URLs in both editors. The single
    'draftail' plugin registered for [link] carries a whitelist whose
    [href] pattern accepts a value exactly when it starts with [http:]
    or with [https:], or is the string [undefined]; the single
    'editorhtml' rule registered for [link] whitelists the [a] element
    with an attribute rule that maps [href] to [check_url]. *)
Theorem link_whitelist (default_order : Z) :
  let features := register_core_features default_order no_features in
  (exists p,
     In ("draftail", "link", p) (editor_plugins features)
     /\ (forall p', In ("draftail", "link", p') (editor_plugins features) -> p' = p)
     /\ forall href, exists accepted,
          whitelist_accepts p "href" href = Some accepted
          /\ (accepted = true <->
              (exists rest, href = "http:" +:+ rest)
              \/ (exists rest, href = "https:" +:+ rest)
              \/ href = "undefined"))
  /\ (exists allowed_attrs others r,
        r = EditorHtml (WhitelistRule "a" (attribute_rule allowed_attrs) :: others)
        /\ In ("editorhtml", "link", r) (converter_rules features)
        /\ (forall r', In ("editorhtml", "link", r') (converter_rules features) -> r' = r)
        /\ allowed_attrs !! "href" = Some check_url).
Proof.
  intros features. subst features. split.
  - eexists. split; [| split].
    + eapply registered_once. vm_compute. reflexivity.
    + eapply registered_once. vm_compute. reflexivity.
    + intros href.
      change (exists accepted,
                 RegExp.test "^(http:|https:|undefined$)" href = Some accepted
                 /\ (accepted = true <->
                     (exists rest, href = "http:" +:+ rest)
                     \/ (exists rest, href = "https:" +:+ rest)
                     \/ href = "undefined")).
      apply link_pattern_test.
  - eexists _, _, _. split; [reflexivity |].
    split; [| split].
    + eapply registered_once. vm_compute. reflexivity.
    + eapply registered_once. vm_compute. reflexivity.
    + vm_compute. reflexivity.
Qed.

(** * Further properties of the hooks *)

(** ** Formatters on arbitrary event data *)

Ltac registry_cases Hin Hf :=
  unfold registered_log_actions, register_workflow_log_actions,
    register_core_log_actions, run, register_action in Hin;
  simpl in Hin;
  repeat (destruct Hin as [<- | Hin];
          [simpl in Hf; first [discriminate Hf | injection Hf as <-] |]);
  [.. | destruct Hin].

Ltac formatter_cases data :=
  unfold CoreLog.revert_message, CoreLog.schedule_revert_message,
    CoreLog.copy_message, CoreLog.move_message, CoreLog.schedule_publish_message,
    CoreLog.unschedule_publish_message, CoreLog.add_view_restriction,
    CoreLog.edit_view_restriction, CoreLog.delete_view_restriction,
    WorkflowLog.workflow_start_message, WorkflowLog.workflow_approve_message,
    WorkflowLog.workflow_reject_message, try_except, sub;
  reduce_formatter; destruct data; reduce_formatter; case_subscripts.

(** The three formatters of [register_workflow_log_actions] return a
    message on every JSON value, mapping or not: whatever a subscript
    raises is caught. *)
Theorem workflow_formatters_never_raise (a : log_action)
    (f : json -> result lazy_str) (data : json) :
  In a (register_workflow_log_actions []) ->
  message a = Formatter f ->
  exists msg, f data = Ok msg.
Proof.
  intros Hin Hf. registry_cases Hin Hf; formatter_cases data; eauto.
Qed.

Lemma workflow_formatters_never_raise_witness :
  exists msg,
    WorkflowLog.workflow_approve_message (JList [JStr "workflow"]) = Ok msg.
Proof.
  refine (workflow_formatters_never_raise
            (LogAction "wagtail.workflow.approve" "Workflow: approve task"
               (Formatter WorkflowLog.workflow_approve_message))
            _ (JList [JStr "workflow"]) _ eq_refl).
  unfold register_workflow_log_actions, run, register_action. simpl. tauto.
Defined.

(** The nine formatters of [register_core_log_actions] never let a
    [KeyError] out, on any JSON value, and on event data that is not a
    mapping they raise [TypeError]. *)
Theorem core_formatters_on_any_data (a : log_action)
    (f : json -> result lazy_str) (data : json) :
  In a (register_core_log_actions []) ->
  message a = Formatter f ->
  (forall key, f data <> Raise (KeyError key))
  /\ ((forall m, data <> JDict m) -> f data = Raise TypeError).
Proof.
  intros Hin Hf. registry_cases Hin Hf; formatter_cases data;
    (split; [intros key; discriminate |]);
    intros Hnot; first [reflexivity | exfalso; eapply Hnot; reflexivity].
Qed.

Lemma core_formatters_on_any_data_witness :
  CoreLog.copy_message (JStr "source") = Raise TypeError.
Proof.
  refine (proj2 (core_formatters_on_any_data
                   (LogAction "wagtail.copy" "Copy" (Formatter CoreLog.copy_message))
                   _ (JStr "source") _ eq_refl) _).
  - unfold register_core_log_actions, run, register_action. simpl. tauto.
  - intros m. discriminate.
Defined.

(** Every message a registered formatter returns can be rendered: each
    [{name}] field of its format string has a keyword argument of that
    name, so displaying the log entry raises neither [KeyError] nor
    [ValueError], whatever the event data and the text conversion. *)
Theorem formatter_messages_render (str : json -> string) (a : log_action)
    (f : json -> result lazy_str) (data : json) (msg : lazy_str) :
  In a registered_log_actions ->
  message a = Formatter f ->
  f data = Ok msg ->
  exists text, render str msg = Rendered text.
Proof.
  intros Hin Hf. registry_cases Hin Hf; formatter_cases data;
    intros Hmsg; first [discriminate Hmsg | injection Hmsg as <-];
    eexists; reflexivity.
Qed.

Lemma formatter_messages_render_witness :
  exists text,
    render (fun v => match v with JStr s => s | _ => "" end)
      (format_lazy "Copied from {title}" [("title", JStr "Home")])
    = Rendered text.
Proof.
  refine (formatter_messages_render _
            (LogAction "wagtail.copy" "Copy" (Formatter CoreLog.copy_message))
            _ (JDict {[ "source" := JDict {[ "title" := JStr "Home" ]} ]}) _
            _ eq_refl _).
  - unfold registered_log_actions, register_workflow_log_actions,
      register_core_log_actions, run, register_action. simpl. tauto.
  - vm_compute. reflexivity.
Defined.

Example copy_message_rendered :
  render (fun v => match v with JStr s => s | _ => "" end)
    (format_lazy "Copied from {title}" [("title", JStr "Home")])
  = Rendered "Copied from Home".
Proof. reflexivity. Qed.

Example missing_keyword_argument_not_rendered :
  render (fun _ => "") (format_lazy "Copied from {title}" [("name", JNull)])
  = FormatKeyError "title".
Proof. reflexivity. Qed.

(** A formatter reads nothing but its chains: adding or changing a
    top-level key that heads none of the chains the formatter reads on
    the data leaves its result unchanged. *)
Theorem formatter_ignores_other_keys (a : log_action)
    (f : json -> result lazy_str) (d : formatter_doc)
    (m : gmap string json) (k : string) (v : json) :
  In a registered_log_actions ->
  message a = Formatter f ->
  doc_of (action a) = Some d ->
  Forall (fun p => head p <> Some k) (reads d (JDict m)) ->
  f (JDict (<[k := v]> m)) = f (JDict m).
Proof.
  intros Hin Hf Hd Hreads.
  registry_cases Hin Hf; cbn in Hd; injection Hd as <-;
    unfold reads, reads_if in Hreads;
    repeat match type of Hreads with
           | Forall _ (_ :: _) =>
               let Hp := fresh "Hp" in
               apply Forall_cons in Hreads as [Hp Hreads]; cbn in Hp
           end;
    unfold CoreLog.revert_message, CoreLog.schedule_revert_message,
      CoreLog.copy_message, CoreLog.move_message, CoreLog.schedule_publish_message,
      CoreLog.unschedule_publish_message, CoreLog.add_view_restriction,
      CoreLog.edit_view_restriction, CoreLog.delete_view_restriction,
      WorkflowLog.workflow_start_message, WorkflowLog.workflow_approve_message,
      WorkflowLog.workflow_reject_message, try_except, sub, getitem,
      mbind, result_bind;
    cbn -[lookup insert];
    rewrite !lookup_insert_ne by congruence;
    reflexivity.
Qed.

Lemma formatter_ignores_other_keys_witness :
  CoreLog.copy_message
    (JDict (<[ "user" := JStr "admin" ]>
              {[ "source" := JDict {[ "title" := JStr "Home" ]} ]}))
  = CoreLog.copy_message (JDict {[ "source" := JDict {[ "title" := JStr "Home" ]} ]}).
Proof.
  refine (formatter_ignores_other_keys
            (LogAction "wagtail.copy" "Copy" (Formatter CoreLog.copy_message))
            _ _ _ "user" _ _ eq_refl eq_refl _).
  - unfold registered_log_actions, register_workflow_log_actions,
      register_core_log_actions, run, register_action. simpl. tauto.
  - repeat constructor. discriminate.
Defined.

(** ** append_querystring, read backwards *)

(** For a given path the result determines the querystring, up to the
    one confusion the function makes: [None] and the empty string both
    leave the path as it is, and nothing else does. *)
Theorem append_querystring_determines_querystring (path : string)
    (q1 q2 : option string) :
  (append_querystring path q1 = append_querystring path q2
   <-> default "" q1 = default "" q2)
  /\ (append_querystring path q1 = path <-> str_truthy q1 = false).
Proof.
  assert (Hinj : forall q q', append_querystring path q = append_querystring path q'
                              <-> default "" q = default "" q').
  { intros q q'. unfold append_querystring, str_truthy. split.
    - intros H. apply (inj (String.app path)) in H.
      destruct q as [[| c s] |], q' as [[| c' s'] |]; vm_compute in H |- *;
        first [reflexivity | discriminate H | (injection H as H1 H2; congruence)].
    - destruct q as [[| c s] |], q' as [[| c' s'] |]; simpl;
        intros H; first [reflexivity | discriminate H | by rewrite H]. }
  split; [apply Hinj |].
  rewrite <- (string_append_empty_r path) at 2.
  change (path +:+ "") with (append_querystring path None).
  rewrite Hinj. unfold str_truthy.
  destruct q1 as [[| c s] |]; simpl; split; intros H;
    first [reflexivity | discriminate H].
Qed.

(** ** Registries that already hold entries *)

Lemma log_action_hooks_append (actions : list log_action) :
  register_workflow_log_actions (register_core_log_actions actions)
  = actions ++ registered_log_actions.
Proof.
  unfold registered_log_actions, register_workflow_log_actions,
    register_core_log_actions, run, register_action.
  simpl. rewrite <- !app_assoc. reflexivity.
Qed.

(** On a registry that already holds actions, the two hooks leave the
    action codes free of duplicates exactly when they were so before
    and none of the earlier codes is one of the 21 codes of this file;
    the earlier entries are kept, in place. *)
Theorem log_action_hooks_keep_codes_unique (actions : list log_action) :
  let after := register_workflow_log_actions (register_core_log_actions actions) in
  (NoDup (map action after)
   <-> NoDup (map action actions)
       /\ Forall (fun a => ~ In (action a) (map action registered_log_actions)) actions)
  /\ take (length actions) after = actions.
Proof.
  intros after. subst after. rewrite log_action_hooks_append. split.
  - rewrite map_app, NoDup_app, List.Forall_forall.
    assert (Hown : NoDup (map action registered_log_actions))
      by (apply (bool_decide_unpack _); vm_compute; exact I).
    split.
    + intros (Hold & Hdisjoint & _). split; [exact Hold |].
      intros a Ha Hin. apply (Hdisjoint (action a)).
      * apply list_elem_of_In, in_map, Ha.
      * by apply list_elem_of_In.
    + intros [Hold Hfresh]. split; [exact Hold |]. split; [| exact Hown].
      intros code Hcode Hin.
      apply list_elem_of_In, in_map_iff in Hcode as (a & <- & Ha).
      apply (Hfresh a Ha). by apply list_elem_of_In.
  - by rewrite take_app_length.
Qed.

Lemma register_icons_append (icons : list string) :
  register_icons icons
  = icons ++ map (String.append "wagtailadmin/icons/") icon_files.
Proof. unfold register_icons. apply foldl_append_each. Qed.

(** [register_icons] does not look at the list it extends: the result
    is free of duplicates exactly when the list received is and holds
    none of the 78 paths, so running the hook a second time always
    duplicates them. *)
Theorem register_icons_no_duplicates_iff (icons : list string) :
  (NoDup (register_icons icons)
   <-> NoDup icons
       /\ Forall (fun icon => ~ In ("wagtailadmin/icons/" +:+ icon) icons) icon_files)
  /\ ~ NoDup (register_icons (register_icons icons)).
Proof.
  assert (Hown : NoDup (map (String.append "wagtailadmin/icons/") icon_files))
    by (apply (bool_decide_unpack _); vm_compute; exact I).
  assert (Hiff : forall l : list string,
             NoDup (register_icons l)
             <-> NoDup l
                 /\ Forall (fun icon => ~ In ("wagtailadmin/icons/" +:+ icon) l)
                      icon_files).
  { intros l. rewrite register_icons_append, NoDup_app, List.Forall_forall. split.
    - intros (Hold & Hdisjoint & _). split; [exact Hold |].
      intros icon Hicon Hin. apply (Hdisjoint ("wagtailadmin/icons/" +:+ icon)).
      + by apply list_elem_of_In.
      + apply list_elem_of_In, in_map, Hicon.
    - intros [Hold Hfresh]. split; [exact Hold |]. split; [| exact Hown].
      intros entry Hentry Hin.
      apply list_elem_of_In, in_map_iff in Hin as (icon & <- & Hicon).
      apply (Hfresh icon Hicon). by apply list_elem_of_In. }
  split; [apply Hiff |].
  intros Hdup. apply Hiff in Hdup as [_ Hfresh].
  rewrite List.Forall_forall in Hfresh.
  apply (Hfresh "warning.svg").
  - vm_compute. tauto.
  - rewrite register_icons_append. apply in_or_app. right.
    apply in_map. vm_compute. tauto.
Qed.

(** ** Menu items *)

Ltac menu_hook_cases H :=
  unfold menu_hook in H; repeat case_decide; simpl in H;
  repeat (destruct H as [<- | H]); try destruct H.

(** Every menu item this file registers with an [icon_name] names an
    icon whose file [register_icons] registers. *)
Theorem menu_icons_are_registered (reverse : string -> list Z -> string)
    (hook_name : string) (item : menu_item) (name : string) :
  In item (menu_hook reverse hook_name) ->
  icon_name item = Some name ->
  In ("wagtailadmin/icons/" +:+ name +:+ ".svg") (register_icons []).
Proof.
  intros Hitem Hicon.
  menu_hook_cases Hitem; simpl in Hicon;
    first [discriminate Hicon | injection Hicon as <-];
    apply list_elem_of_In, (bool_decide_unpack _); vm_compute; exact I.
Qed.

Lemma menu_icons_are_registered_witness :
  In "wagtailadmin/icons/folder-open-inverse.svg" (register_icons []).
Proof.
  refine (menu_icons_are_registered (fun name _ => name) "register_admin_menu_item"
            (register_explorer_menu_item (fun name _ => name))
            "folder-open-inverse" _ eq_refl).
  unfold menu_hook. simpl. tauto.
Defined.

(** Within each menu hook the items of this file have pairwise
    distinct [order] keys, so sorting a menu by [order] never has to
    break a tie between them. *)
Theorem menu_orders_are_distinct (reverse : string -> list Z -> string)
    (hook_name : string) :
  NoDup (map order (menu_hook reverse hook_name)).
Proof.
  unfold menu_hook. repeat case_decide; simpl;
    apply (bool_decide_unpack _); vm_compute; exact I.
Qed.

(** [ExplorerMenuItem.get_context] changes the inherited context at
    [start_page_id] only: every other key keeps its value; the key is
    set to the id of the start page when there is one, overriding an
    inherited value, and keeps what it had (if anything) otherwise. *)
Theorem get_context_start_page (super_context : gmap string json)
    (start_page : option page) (key : string) :
  get_context super_context start_page !! key
  = match start_page with
    | Some p => if decide (key = "start_page_id")
                then Some (JInt (page_id p))
                else super_context !! key
    | None => super_context !! key
    end.
Proof.
  unfold get_context. destruct start_page as [p |]; [| reflexivity].
  case_decide as Hkey.
  - subst key. apply lookup_insert_eq.
  - by apply lookup_insert_ne.
Qed.

(** ** Attributes and targets of the listing buttons *)

Lemma Forall_yield_if (P : widget -> Prop) (cond : bool) (w : widget) :
  P w -> Forall P (yield_if cond w).
Proof. intros H. destruct cond; simpl; auto. Qed.

(** Reduces a property of every widget of a generator to the widgets
    of its [yield] statements, one goal each. *)
Ltac each_yield :=
  unfold page_listing_buttons, page_listing_more_buttons;
  rewrite ?Forall_app; repeat split;
  repeat match goal with
         | |- Forall _ (yield_if _ _) => apply Forall_yield_if
         | |- Forall _ (if ?c then _ else _) => destruct c
         | |- Forall _ (_ :: _) => apply List.Forall_cons
         | |- Forall _ [] => apply List.Forall_nil
         end.

(** No widget of the two generators opens a new tab without cutting
    the opener: whenever the [target] attribute is [_blank], [rel] is
    [noopener noreferrer]. *)
Theorem new_tab_widgets_cut_the_opener (reverse : string -> list Z -> string)
    (page : page) (page_perms : page_perms) (is_parent : bool)
    (next_url : option string) :
  Forall (fun w => widget_attrs w !! "target" = Some "_blank" ->
                   widget_attrs w !! "rel" = Some "noopener noreferrer")
    (page_listing_buttons reverse page page_perms is_parent next_url
     ++ page_listing_more_buttons reverse page page_perms is_parent next_url).
Proof.
  each_yield; intros H; first [reflexivity | discriminate H].
Qed.

(** Every widget carries the page's display title in an attribute that
    names it to the user: [aria-label] on the listing buttons, [title]
    on the dropdown and on the buttons inside it. *)
Theorem widgets_name_the_page (reverse : string -> list Z -> string)
    (page : page) (page_perms : page_perms) (is_parent : bool)
    (next_url : option string) :
  let names_page (attr : string) (w : widget) :=
    exists before after,
      widget_attrs w !! attr
      = Some (before +:+ get_admin_display_title page +:+ after) in
  Forall (fun w => match w with
                   | ButtonWithDropdownFromHook _ _ _ _ _ _ _ _ => names_page "title" w
                   | _ => names_page "aria-label" w
                   end)
    (page_listing_buttons reverse page page_perms is_parent next_url)
  /\ Forall (names_page "title")
       (page_listing_more_buttons reverse page page_perms is_parent next_url).
Proof.
  intros names_page. subst names_page.
  split; each_yield; eexists _, _; reflexivity.
Qed.

(** [is_parent] changes the class of the 'Add child page' button and
    nothing a link is built from: labels, targets, attributes and
    priorities of the listing buttons are the same either way. *)
Theorem is_parent_changes_no_link (reverse : string -> list Z -> string)
    (page : page) (page_perms : page_perms) (next_url : option string) :
  let view w := (widget_label w, widget_url w, widget_attrs w, widget_priority w) in
  map view (page_listing_buttons reverse page page_perms true next_url)
  = map view (page_listing_buttons reverse page page_perms false next_url)
  /\ page_listing_more_buttons reverse page page_perms true next_url
     = page_listing_more_buttons reverse page page_perms false next_url.
Proof.
  intros view. split; [| reflexivity].
  unfold page_listing_buttons. rewrite !map_app.
  destruct (can_add_subpage page_perms); reflexivity.
Qed.

Lemma Forall_yield_if_guarded (P : widget -> Prop) (cond : bool) (w : widget) :
  (cond = true -> P w) -> Forall P (yield_if cond w).
Proof. intros H. destruct cond; simpl; auto. Qed.

(** A 'View live' button is only ever yielded by
    [page_listing_buttons], for a live page with a non-empty URL, and
    that URL is its target; [page_listing_more_buttons] never yields
    one. *)
Theorem view_live_targets_the_page_url (reverse : string -> list Z -> string)
    (page : page) (page_perms : page_perms) (is_parent : bool)
    (next_url : option string) :
  Forall (fun w => widget_label w = "View live" ->
                   live page = true
                   /\ exists url, page_url page = Some url /\ url <> ""
                                  /\ widget_url w = Some url)
    (page_listing_buttons reverse page page_perms is_parent next_url)
  /\ Forall (fun w => widget_label w <> "View live")
       (page_listing_more_buttons reverse page page_perms is_parent next_url).
Proof.
  unfold page_listing_buttons, page_listing_more_buttons.
  rewrite ?Forall_app; repeat split;
    repeat match goal with
           | |- Forall _ (yield_if _ _) => apply Forall_yield_if_guarded; intros Hguard
           | |- Forall _ (if ?c then _ else _) => destruct c
           | |- Forall _ (_ :: _) => apply List.Forall_cons
           | |- Forall _ [] => apply List.Forall_nil
           end;
    try (intros Hlabel; discriminate Hlabel).
  intros _.
  apply andb_true_iff in Hguard as [Hlive Hurl]. split; [exact Hlive |].
  unfold str_truthy in Hurl. destruct (page_url page) as [url |]; [| discriminate Hurl].
  exists url. repeat split. intros ->. discriminate Hurl.
Qed.

(** ** Consistency of the rich-text tables *)

(** [register_core_features] never registers a pair (editor, feature)
    or (converter, feature) twice, so no registration of this hook
    replaces an earlier one of its own. *)
Theorem core_features_register_each_pair_once (default_order : Z) :
  let features := register_core_features default_order no_features in
  NoDup (editor_plugins features).*1 /\ NoDup (converter_rules features).*1.
Proof.
  split; apply (bool_decide_unpack _); vm_compute; exact I.
Qed.

(** The node type a Draftail feature declares to the editor is the one
    node type its [contentstate] rule writes to the database, and of
    the same kind: a block feature has a one-entry [block_map], an
    inline style feature a one-entry [style_map], an entity feature a
    one-entry [entity_decorators], keyed by the declared type. *)
Theorem draftail_type_is_the_type_written (default_order : Z) (feature : string)
    (p : plugin) (from : gmap string element_handler) (to : to_database_format)
    (node : node_kind * string) :
  let features := register_core_features default_order no_features in
  In ("draftail", feature, p) (editor_plugins features) ->
  In ("contentstate", feature, ContentState from to) (converter_rules features) ->
  plugin_node_type p = Some node ->
  written_node_types to = [node].
Proof.
  intros features Hp Hr Hnode. subst features.
  pose (check := fun (c : string * string * plugin)
                     (r : string * string * converter_rule) =>
    if decide (c.1 = ("draftail", r.1.2) /\ r.1.1 = "contentstate") then
      match r.2, plugin_node_type c.2 with
      | ContentState _ to, Some node => bool_decide (written_node_types to = [node])
      | _, _ => true
      end
    else true).
  assert (Hall : forallb (fun c =>
                    forallb (check c)
                      (converter_rules (register_core_features default_order no_features)))
                   (editor_plugins (register_core_features default_order no_features))
                 = true) by (vm_compute; reflexivity).
  rewrite forallb_forall in Hall. specialize (Hall _ Hp).
  rewrite forallb_forall in Hall. specialize (Hall _ Hr).
  unfold check in Hall. simpl in Hall. rewrite Hnode in Hall.
  rewrite decide_True in Hall by done.
  by apply bool_decide_eq_true in Hall.
Qed.

Lemma draftail_type_is_the_type_written_witness :
  written_node_types (with_style_map {[ "BOLD" := "b" ]}) = [(InlineStyle, "BOLD")].
Proof.
  refine (draftail_type_is_the_type_written 20 "bold"
            (InlineStyleFeature {[ "type" := JStr "BOLD"; "icon" := JStr "bold";
                                   "description" := JStr "Bold" ]})
            {[ "b" := InlineStyleElementHandler "BOLD";
               "strong" := InlineStyleElementHandler "BOLD" ]}
            _ _ _ _ _).
  - apply registered_In. vm_compute. reflexivity.
  - apply registered_In. vm_compute. reflexivity.
  - vm_compute. reflexivity.
Defined.

(** For a feature of both editors the two converters handle the same
    HTML elements: the elements its [editorhtml] rule whitelists are
    the elements of the selectors of its [contentstate] rule. *)
Theorem converters_handle_the_same_elements (default_order : Z) (feature : string)
    (rules : list editor_html_rule) (from : gmap string element_handler)
    (to : to_database_format) :
  let features := register_core_features default_order no_features in
  In ("editorhtml", feature, EditorHtml rules) (converter_rules features) ->
  In ("contentstate", feature, ContentState from to) (converter_rules features) ->
  list_to_set (whitelisted_elements rules)
  =@{gset string} set_map selector_element (dom from).
Proof.
  intros features He Hc. subst features.
  pose (check := fun (e c : string * string * converter_rule) =>
    if decide (e.1 = ("editorhtml", c.1.2) /\ c.1.1 = "contentstate") then
      match e.2, c.2 with
      | EditorHtml rules, ContentState from _ =>
          bool_decide (list_to_set (whitelisted_elements rules)
                       =@{gset string} set_map selector_element (dom from))
      | _, _ => true
      end
    else true).
  assert (Hall : forallb (fun e =>
                    forallb (check e)
                      (converter_rules (register_core_features default_order no_features)))
                   (converter_rules (register_core_features default_order no_features))
                 = true) by (vm_compute; reflexivity).
  rewrite forallb_forall in Hall. specialize (Hall _ He).
  rewrite forallb_forall in Hall. specialize (Hall _ Hc).
  unfold check in Hall. simpl in Hall.
  rewrite decide_True in Hall by done.
  by apply bool_decide_eq_true in Hall.
Qed.

Lemma converters_handle_the_same_elements_witness :
  list_to_set (whitelisted_elements
                 [WhitelistRule "a" (attribute_rule {[ "href" := check_url ]});
                  LinkTypeRule "page" PageLinkHandler])
  =@{gset string}
  set_map selector_element
    (dom ({[ "a[href]" := ExternalLinkElementHandler "LINK";
             "a[linktype=" +:+ dquote +:+ "page" +:+ dquote +:+ "]"
               := PageLinkElementHandler "LINK" ]} : gmap string element_handler)).
Proof.
  refine (converters_handle_the_same_elements 20 "link" _ _
            (with_entity_decorators {[ "LINK" := link_entity ]}) _ _).
  - apply registered_In. vm_compute. reflexivity.
  - apply registered_In. vm_compute. reflexivity.
Defined.

(** The [contentstate] rules of any two features can be merged in
    either order: a selector two features share ([li], of both lists)
    has the same handler in both, and so for the node types written;
    and two different features never write the same node type. *)
Theorem contentstate_rules_merge_in_any_order (default_order : Z)
    (feature1 feature2 : string) (from1 from2 : gmap string element_handler)
    (to1 to2 : to_database_format) :
  let features := register_core_features default_order no_features in
  In ("contentstate", feature1, ContentState from1 to1) (converter_rules features) ->
  In ("contentstate", feature2, ContentState from2 to2) (converter_rules features) ->
  from1 ∪ from2 = from2 ∪ from1
  /\ block_map to1 ∪ block_map to2 = block_map to2 ∪ block_map to1
  /\ style_map to1 ∪ style_map to2 = style_map to2 ∪ style_map to1
  /\ entity_decorators to1 ∪ entity_decorators to2
     = entity_decorators to2 ∪ entity_decorators to1
  /\ (feature1 <> feature2 ->
      Forall (fun node => ~ In node (written_node_types to2)) (written_node_types to1)).
Proof.
  intros features H1 H2. subst features.
  pose (check := fun (r1 r2 : string * string * converter_rule) =>
    match r1.2, r2.2 with
    | ContentState from1 to1, ContentState from2 to2 =>
        bool_decide (from1 ∪ from2 = from2 ∪ from1)
        && bool_decide (block_map to1 ∪ block_map to2 = block_map to2 ∪ block_map to1)
        && bool_decide (style_map to1 ∪ style_map to2 = style_map to2 ∪ style_map to1)
        && bool_decide (entity_decorators to1 ∪ entity_decorators to2
                        = entity_decorators to2 ∪ entity_decorators to1)
        && (bool_decide (r1.1.2 = r2.1.2)
            || forallb (fun node => bool_decide (node ∉ written_node_types to2))
                       (written_node_types to1))
    | _, _ => true
    end).
  assert (Hall : forallb (fun r1 =>
                    forallb (check r1)
                      (converter_rules (register_core_features default_order no_features)))
                   (converter_rules (register_core_features default_order no_features))
                 = true) by (vm_compute; reflexivity).
  rewrite forallb_forall in Hall. specialize (Hall _ H1).
  rewrite forallb_forall in Hall. specialize (Hall _ H2).
  unfold check in Hall. simpl in Hall.
  rewrite !andb_true_iff, orb_true_iff, !bool_decide_eq_true in Hall.
  destruct Hall as ((((Hf & Hb) & Hs) & He) & Hw).
  repeat (split; [assumption |]).
  intros Hne. destruct Hw as [Heq | Hw]; [contradiction |].
  rewrite forallb_forall in Hw. apply List.Forall_forall.
  intros node Hnode Hin. specialize (Hw _ Hnode).
  apply bool_decide_eq_true in Hw. by apply Hw, list_elem_of_In.
Qed.

Lemma contentstate_rules_merge_in_any_order_witness :
  ({[ "ul" := ListElementHandler "unordered-list-item";
      "li" := ListItemElementHandler ]} : gmap string element_handler)
    ∪ {[ "ol" := ListElementHandler "ordered-list-item";
         "li" := ListItemElementHandler ]}
  = {[ "ol" := ListElementHandler "ordered-list-item";
       "li" := ListItemElementHandler ]}
    ∪ {[ "ul" := ListElementHandler "unordered-list-item";
         "li" := ListItemElementHandler ]}.
Proof.
  refine (proj1 (contentstate_rules_merge_in_any_order 20 "ul" "ol" _ _
                   (with_block_map {[ "unordered-list-item" := ElementWrapper "li" "ul" ]})
                   (with_block_map {[ "ordered-list-item" := ElementWrapper "li" "ol" ]})
                   _ _)).
  - apply registered_In. vm_compute. reflexivity.
  - apply registered_In. vm_compute. reflexivity.
Defined.

(** In the [editorhtml] rules the link's [a] element, and only it,
    keeps an attribute: the link rule whitelists [a] with the attribute
    rule that passes [href] through [check_url], it whitelists no other
    element, and every element whitelisted for another feature is
    allowed without attributes. *)
Theorem only_links_keep_an_attribute (default_order : Z) :
  let features := register_core_features default_order no_features in
  (forall feature rules element handler,
     In ("editorhtml", feature, EditorHtml rules) (converter_rules features) ->
     In (WhitelistRule element handler) rules ->
     if decide (feature = "link")
     then element = "a" /\ handler = attribute_rule {[ "href" := check_url ]}
     else handler = allow_without_attributes)
  /\ exists rules,
       In ("editorhtml", "link", EditorHtml rules) (converter_rules features)
       /\ In (WhitelistRule "a" (attribute_rule {[ "href" := check_url ]})) rules.
Proof.
  intros features. subst features. split.
  - intros feature rules element handler Hr Hw.
    unfold register_core_features, run, no_features in Hr.
    rewrite headings_enumerated in Hr.
    cbn [foldl register_editor_plugin register_converter_rule
         editor_plugins converter_rules app In] in Hr.
    repeat (destruct Hr as [Hr | Hr];
            [first [discriminate Hr
                   | injection Hr as <- <-; cbn [In] in Hw;
                     repeat (destruct Hw as [Hw | Hw];
                             [first [discriminate Hw
                                    | injection Hw as <- <-;
                                      case_decide; first [done | discriminate]] |]);
                     destruct Hw] |]).
    destruct Hr.
  - eexists. split; [apply registered_In; vm_compute; reflexivity |].
    left. reflexivity.
Qed.

Lemma only_links_keep_an_attribute_witness :
  let rules := [WhitelistRule "a" (attribute_rule {[ "href" := check_url ]});
                LinkTypeRule "page" PageLinkHandler] in
  In ("editorhtml", "link", EditorHtml rules)
     (converter_rules (register_core_features 20 no_features))
  /\ In (WhitelistRule "a" (attribute_rule {[ "href" := check_url ]})) rules
  /\ (if decide ("link" = "link")
      then "a" = "a"
           /\ attribute_rule {[ "href" := check_url ]}
              = attribute_rule {[ "href" := check_url ]}
      else attribute_rule {[ "href" := check_url ]} = allow_without_attributes).
Proof.
  intros rules.
  assert (Hr : In ("editorhtml", "link", EditorHtml rules)
                  (converter_rules (register_core_features 20 no_features)))
    by (apply registered_In; vm_compute; reflexivity).
  assert (Hw : In (WhitelistRule "a" (attribute_rule {[ "href" := check_url ]})) rules)
    by (left; reflexivity).
  split; [exact Hr | split; [exact Hw |]].
  exact (proj1 (only_links_keep_an_attribute 20) "link" rules "a" _ Hr Hw).
Defined.

(** The loop over the headings gives the Hallo plugin of the [i]-th
    heading element the order [default_order + 1 + i]: h1 to h6 follow
    the default order, in that sequence, with consecutive orders. *)
Theorem hallo_heading_orders (default_order : Z) (i : nat) (element : string) :
  headings_elements !! i = Some element ->
  In ("hallo", element,
      HalloHeadingPlugin element (default_order + 1 + Z.of_nat i))
     (editor_plugins (register_core_features default_order no_features)).
Proof.
  intros Hi.
  unfold register_core_features, run, no_features.
  rewrite headings_enumerated.
  cbn [foldl register_editor_plugin register_converter_rule
       editor_plugins converter_rules app].
  rewrite (Z.add_comm (default_order + 1) (Z.of_nat i)).
  destruct i as [| [| [| [| [| [| i]]]]]]; cbn in Hi;
    first [discriminate Hi | injection Hi as <-];
    cbn [In]; repeat (first [left; reflexivity | right]).
Qed.

Lemma hallo_heading_orders_witness :
  In ("hallo", "h3", HalloHeadingPlugin "h3" (20 + 1 + Z.of_nat 2))
     (editor_plugins (register_core_features 20 no_features)).
Proof. exact (hallo_heading_orders 20 2 "h3" eq_refl). Defined.
